(** * Countdown timekeeper: the session state machine of
      [hooks/useCountdownTimekeeper.ts] over [utils/storage.ts]

    The hook is a React component function: every render evaluates its body
    again, so every callback is a closure over the values of one render.
    The embedding keeps that structure.

    - React state ([config], [stateData], [sessions], [audioEnabled]), the
      refs, the two interval handles, [localStorage] and the calls made to
      the audio functions are the fields of one record, [World].
    - A callback is a function of the render it closes over ([Env]) and of
      the world it mutates; an interval handle stores the closure installed
      by [setInterval], that is the [Env] and the [duration] it captured.
    - [useCallback] keeps a callback until one of its dependencies changes.
      Every dependency list of the hook names all that the callback reads,
      except [startArmingTimer], which calls [transitionToRunning] without
      listing it: the world remembers the render [startArmingTimer] was
      last built in ([armingEnv]).
    - [Date.now()] is an argument of every handler (one clock reading per
      event), and so is the random suffix of [generateId].
    - Timestamps and durations are JavaScript numbers holding integers; they
      are [Z]. A failing [localStorage] (the [catch] branches) is not
      modelled. *)

From Stdlib Require Import ZArith List String Bool Lia.
From Stdlib Require Import DecimalString.
From Stdlib Require DecimalZ DecimalPos.
Import ListNotations.
Open Scope string_scope.
Open Scope Z_scope.

(** ** JavaScript truthiness of the values the hook tests *)

(** [if (ref.current)] on a [number | null]: [null] and [0] are falsy. *)
Definition truthy (o : option Z) : bool :=
  match o with
  | Some t => negb (t =? 0)
  | None => false
  end.

(** [if (ref.current)] on a [string | null]: [null] and the empty string
    are falsy. *)
Definition truthyStr (o : option string) : bool :=
  match o with
  | Some s => negb (String.eqb s "")
  | None => false
  end.

(** [a || b] on a [number | null] left operand. *)
Definition orNum (o : option Z) (d : Z) : Z :=
  match o with
  | Some t => if t =? 0 then d else t
  | None => d
  end.

(** [a || b] on strings. *)
Definition orStr (s d : string) : string :=
  if String.eqb s "" then d else s.

(** [Math.ceil(r / 1000)] for an integer [r]. *)
Definition ceilDiv1000 (r : Z) : Z := - ((- r) / 1000).

(** ** The state tag *)

Inductive TimekeeperState : Type :=
| idle | arming | running | paused | finished | aborted.

Definition TimekeeperState_eqb (a b : TimekeeperState) : bool :=
  match a, b with
  | idle, idle | arming, arming | running, running
  | paused, paused | finished, finished | aborted, aborted => true
  | _, _ => false
  end.

(** ** [utils/storage.ts] *)

Inductive SessionStatus : Type := status_finished | status_aborted.

Module Session.
Record t : Type := mk {
  id : string;
  activityType : string;
  targetDurationMs : Z;
  startAt : Z;
  endAt : Z;
  status : SessionStatus;
  effectiveDurationMs : Z;
  overdueMs : option Z
}.
End Session.

Module PersistedState.
Record t : Type := mk {
  state : TimekeeperState;
  activityType : string;
  targetDurationMs : Z;
  startTimestamp : option Z;
  pausedAt : option Z;
  accumulatedPausedMs : Z;
  armingStartTimestamp : option Z;
  warningTriggered : bool;
  mute : bool
}.
End PersistedState.

(** The two keys of [localStorage] the program uses. *)
Module LocalStorage.
Record t : Type := mk {
  timekeeper_sessions : list Session.t;
  timekeeper_state : option PersistedState.t
}.
End LocalStorage.

Definition MAX_SESSIONS : nat := 100.

Definition getSessions (ls : LocalStorage.t) : list Session.t :=
  LocalStorage.timekeeper_sessions ls.

Definition saveSession (session : Session.t) (ls : LocalStorage.t)
  : LocalStorage.t :=
  let existing := getSessions ls in
  let updated := firstn MAX_SESSIONS (session :: existing) in
  LocalStorage.mk updated (LocalStorage.timekeeper_state ls).

Definition getLastSessions (count : nat) (ls : LocalStorage.t)
  : list Session.t :=
  firstn count (getSessions ls).

Definition clearSessions (ls : LocalStorage.t) : LocalStorage.t :=
  LocalStorage.mk [] (LocalStorage.timekeeper_state ls).

Definition saveState (st : PersistedState.t) (ls : LocalStorage.t)
  : LocalStorage.t :=
  LocalStorage.mk (LocalStorage.timekeeper_sessions ls) (Some st).

Definition getState (ls : LocalStorage.t) : option PersistedState.t :=
  LocalStorage.timekeeper_state ls.

Definition clearState (ls : LocalStorage.t) : LocalStorage.t :=
  LocalStorage.mk (LocalStorage.timekeeper_sessions ls) None.

(** [`${Date.now()}-${Math.random().toString(36).substr(2, 9)}`]; the random
    suffix is supplied by the caller. *)
Definition generateId (now : Z) (rnd : string) : string :=
  String.append (NilZero.string_of_int (Z.to_int now))
                (String.append "-" rnd).

(** ** [hooks/useCountdownTimekeeper.ts]: data *)

Definition ARMING_DURATION : Z := 3000.
Definition TICK_INTERVAL : Z := 16.
Definition PERSIST_INTERVAL : Z := 250.

Module TimekeeperConfig.
Record t : Type := mk {
  activityType : string;
  targetMinutes : Z;
  targetSeconds : Z;
  warningThresholdMinutes : Z
}.
End TimekeeperConfig.

Module TimekeeperStateData.
Record t : Type := mk {
  state : TimekeeperState;
  remainingMs : Z;
  armingCountdown : Z;
  isWarning : bool;
  mute : bool
}.
End TimekeeperStateData.

(** The functions of [utils/audio.ts] the hook calls. *)
Inductive Beep : Type :=
| beepOnce | beepDouble | beepWarningTriple | beepFinishAlarm | beepAbortLow.

Definition Beep_eq_dec (a b : Beep) : {a = b} + {a <> b}.
Proof. decide equality. Defined.

(** What a callback closes over: the React state of the render that built
    it. *)
Record Env : Type := mkEnv {
  env_config : TimekeeperConfig.t;
  env_stateData : TimekeeperStateData.t;
  env_audioEnabled : bool
}.

(** [const targetDurationMs = ...] and [const warningThresholdMs = ...] of
    the hook body. *)
Definition targetDurationMs (e : Env) : Z :=
  TimekeeperConfig.targetMinutes (env_config e) * 60 * 1000
  + TimekeeperConfig.targetSeconds (env_config e) * 1000.

Definition warningThresholdMs (e : Env) : Z :=
  TimekeeperConfig.warningThresholdMinutes (env_config e) * 60 * 1000.

(** [!stateData.mute && audioEnabled], the test in front of every beep. *)
Definition audible (e : Env) : bool :=
  negb (TimekeeperStateData.mute (env_stateData e)) && env_audioEnabled e.

(** The callback a [setInterval] was given: the arming countdown of
    [startArmingTimer] or the countdown tick of [startTimer], each with the
    render and the [duration] argument it captured. *)
Inductive Interval : Type :=
| ArmingInterval (e : Env) (duration : Z)
| TimerInterval (e : Env) (duration : Z).

(** React state, refs, memoised closure, storage and the audio calls made so
    far (latest first). *)
Record World : Type := mkWorld {
  config : TimekeeperConfig.t;
  stateData : TimekeeperStateData.t;
  sessions : list Session.t;
  audioEnabled : bool;
  intervalRef : option Interval;
  persistIntervalRef : option Env;
  startTimestampRef : option Z;
  pausedAtRef : option Z;
  accumulatedPausedMsRef : Z;
  armingStartTimestampRef : option Z;
  warningTriggeredRef : bool;
  sessionIdRef : option string;
  lastCountdownRef : option Z;
  finishAlarmTriggeredRef : bool;
  armingEnv : Env;
  localStorage : LocalStorage.t;
  beeps : list Beep
}.

Definition set_config (v : TimekeeperConfig.t) (w : World) : World :=
  mkWorld v (stateData w) (sessions w) (audioEnabled w) (intervalRef w)
    (persistIntervalRef w) (startTimestampRef w) (pausedAtRef w)
    (accumulatedPausedMsRef w) (armingStartTimestampRef w)
    (warningTriggeredRef w) (sessionIdRef w) (lastCountdownRef w)
    (finishAlarmTriggeredRef w) (armingEnv w) (localStorage w) (beeps w).

Definition set_stateData (v : TimekeeperStateData.t) (w : World) : World :=
  mkWorld (config w) v (sessions w) (audioEnabled w) (intervalRef w)
    (persistIntervalRef w) (startTimestampRef w) (pausedAtRef w)
    (accumulatedPausedMsRef w) (armingStartTimestampRef w)
    (warningTriggeredRef w) (sessionIdRef w) (lastCountdownRef w)
    (finishAlarmTriggeredRef w) (armingEnv w) (localStorage w) (beeps w).

Definition set_sessions (v : list Session.t) (w : World) : World :=
  mkWorld (config w) (stateData w) v (audioEnabled w) (intervalRef w)
    (persistIntervalRef w) (startTimestampRef w) (pausedAtRef w)
    (accumulatedPausedMsRef w) (armingStartTimestampRef w)
    (warningTriggeredRef w) (sessionIdRef w) (lastCountdownRef w)
    (finishAlarmTriggeredRef w) (armingEnv w) (localStorage w) (beeps w).

Definition set_audioEnabled (v : bool) (w : World) : World :=
  mkWorld (config w) (stateData w) (sessions w) v (intervalRef w)
    (persistIntervalRef w) (startTimestampRef w) (pausedAtRef w)
    (accumulatedPausedMsRef w) (armingStartTimestampRef w)
    (warningTriggeredRef w) (sessionIdRef w) (lastCountdownRef w)
    (finishAlarmTriggeredRef w) (armingEnv w) (localStorage w) (beeps w).

Definition set_intervalRef (v : option Interval) (w : World) : World :=
  mkWorld (config w) (stateData w) (sessions w) (audioEnabled w) v
    (persistIntervalRef w) (startTimestampRef w) (pausedAtRef w)
    (accumulatedPausedMsRef w) (armingStartTimestampRef w)
    (warningTriggeredRef w) (sessionIdRef w) (lastCountdownRef w)
    (finishAlarmTriggeredRef w) (armingEnv w) (localStorage w) (beeps w).

Definition set_persistIntervalRef (v : option Env) (w : World) : World :=
  mkWorld (config w) (stateData w) (sessions w) (audioEnabled w)
    (intervalRef w) v (startTimestampRef w) (pausedAtRef w)
    (accumulatedPausedMsRef w) (armingStartTimestampRef w)
    (warningTriggeredRef w) (sessionIdRef w) (lastCountdownRef w)
    (finishAlarmTriggeredRef w) (armingEnv w) (localStorage w) (beeps w).

Definition set_startTimestampRef (v : option Z) (w : World) : World :=
  mkWorld (config w) (stateData w) (sessions w) (audioEnabled w)
    (intervalRef w) (persistIntervalRef w) v (pausedAtRef w)
    (accumulatedPausedMsRef w) (armingStartTimestampRef w)
    (warningTriggeredRef w) (sessionIdRef w) (lastCountdownRef w)
    (finishAlarmTriggeredRef w) (armingEnv w) (localStorage w) (beeps w).

Definition set_pausedAtRef (v : option Z) (w : World) : World :=
  mkWorld (config w) (stateData w) (sessions w) (audioEnabled w)
    (intervalRef w) (persistIntervalRef w) (startTimestampRef w) v
    (accumulatedPausedMsRef w) (armingStartTimestampRef w)
    (warningTriggeredRef w) (sessionIdRef w) (lastCountdownRef w)
    (finishAlarmTriggeredRef w) (armingEnv w) (localStorage w) (beeps w).

Definition set_accumulatedPausedMsRef (v : Z) (w : World) : World :=
  mkWorld (config w) (stateData w) (sessions w) (audioEnabled w)
    (intervalRef w) (persistIntervalRef w) (startTimestampRef w)
    (pausedAtRef w) v (armingStartTimestampRef w) (warningTriggeredRef w)
    (sessionIdRef w) (lastCountdownRef w) (finishAlarmTriggeredRef w)
    (armingEnv w) (localStorage w) (beeps w).

Definition set_armingStartTimestampRef (v : option Z) (w : World) : World :=
  mkWorld (config w) (stateData w) (sessions w) (audioEnabled w)
    (intervalRef w) (persistIntervalRef w) (startTimestampRef w)
    (pausedAtRef w) (accumulatedPausedMsRef w) v (warningTriggeredRef w)
    (sessionIdRef w) (lastCountdownRef w) (finishAlarmTriggeredRef w)
    (armingEnv w) (localStorage w) (beeps w).

Definition set_warningTriggeredRef (v : bool) (w : World) : World :=
  mkWorld (config w) (stateData w) (sessions w) (audioEnabled w)
    (intervalRef w) (persistIntervalRef w) (startTimestampRef w)
    (pausedAtRef w) (accumulatedPausedMsRef w) (armingStartTimestampRef w)
    v (sessionIdRef w) (lastCountdownRef w) (finishAlarmTriggeredRef w)
    (armingEnv w) (localStorage w) (beeps w).

Definition set_sessionIdRef (v : option string) (w : World) : World :=
  mkWorld (config w) (stateData w) (sessions w) (audioEnabled w)
    (intervalRef w) (persistIntervalRef w) (startTimestampRef w)
    (pausedAtRef w) (accumulatedPausedMsRef w) (armingStartTimestampRef w)
    (warningTriggeredRef w) v (lastCountdownRef w)
    (finishAlarmTriggeredRef w) (armingEnv w) (localStorage w) (beeps w).

Definition set_lastCountdownRef (v : option Z) (w : World) : World :=
  mkWorld (config w) (stateData w) (sessions w) (audioEnabled w)
    (intervalRef w) (persistIntervalRef w) (startTimestampRef w)
    (pausedAtRef w) (accumulatedPausedMsRef w) (armingStartTimestampRef w)
    (warningTriggeredRef w) (sessionIdRef w) v (finishAlarmTriggeredRef w)
    (armingEnv w) (localStorage w) (beeps w).

Definition set_finishAlarmTriggeredRef (v : bool) (w : World) : World :=
  mkWorld (config w) (stateData w) (sessions w) (audioEnabled w)
    (intervalRef w) (persistIntervalRef w) (startTimestampRef w)
    (pausedAtRef w) (accumulatedPausedMsRef w) (armingStartTimestampRef w)
    (warningTriggeredRef w) (sessionIdRef w) (lastCountdownRef w) v
    (armingEnv w) (localStorage w) (beeps w).

Definition set_armingEnv (v : Env) (w : World) : World :=
  mkWorld (config w) (stateData w) (sessions w) (audioEnabled w)
    (intervalRef w) (persistIntervalRef w) (startTimestampRef w)
    (pausedAtRef w) (accumulatedPausedMsRef w) (armingStartTimestampRef w)
    (warningTriggeredRef w) (sessionIdRef w) (lastCountdownRef w)
    (finishAlarmTriggeredRef w) v (localStorage w) (beeps w).

Definition set_localStorage (v : LocalStorage.t) (w : World) : World :=
  mkWorld (config w) (stateData w) (sessions w) (audioEnabled w)
    (intervalRef w) (persistIntervalRef w) (startTimestampRef w)
    (pausedAtRef w) (accumulatedPausedMsRef w) (armingStartTimestampRef w)
    (warningTriggeredRef w) (sessionIdRef w) (lastCountdownRef w)
    (finishAlarmTriggeredRef w) (armingEnv w) v (beeps w).

Definition set_beeps (v : list Beep) (w : World) : World :=
  mkWorld (config w) (stateData w) (sessions w) (audioEnabled w)
    (intervalRef w) (persistIntervalRef w) (startTimestampRef w)
    (pausedAtRef w) (accumulatedPausedMsRef w) (armingStartTimestampRef w)
    (warningTriggeredRef w) (sessionIdRef w) (lastCountdownRef w)
    (finishAlarmTriggeredRef w) (armingEnv w) (localStorage w) v.

(** ** [hooks/useCountdownTimekeeper.ts]: the callbacks *)

Section Callbacks.

Import TimekeeperStateData.

(** [setStateData(prev => ...)]: the updaters of one event are applied in
    the order they were queued. *)
Definition setStateData (f : TimekeeperStateData.t -> TimekeeperStateData.t)
    (w : World) : World :=
  set_stateData (f (stateData w)) w.

Definition with_state (s : TimekeeperState) (p : TimekeeperStateData.t) :=
  mk s (remainingMs p) (armingCountdown p) (isWarning p) (mute p).
Definition with_remainingMs (r : Z) (p : TimekeeperStateData.t) :=
  mk (state p) r (armingCountdown p) (isWarning p) (mute p).
Definition with_armingCountdown (c : Z) (p : TimekeeperStateData.t) :=
  mk (state p) (remainingMs p) c (isWarning p) (mute p).
Definition with_isWarning (b : bool) (p : TimekeeperStateData.t) :=
  mk (state p) (remainingMs p) (armingCountdown p) b (mute p).
Definition with_mute (b : bool) (p : TimekeeperStateData.t) :=
  mk (state p) (remainingMs p) (armingCountdown p) (isWarning p) b.

(** A call of a function of [utils/audio.ts]. *)
Definition play (b : Beep) (w : World) : World :=
  set_beeps (b :: beeps w) w.

(** [if (!stateData.mute && audioEnabled) { b(); }] *)
Definition playIfAudible (e : Env) (b : Beep) (w : World) : World :=
  if audible e then play b w else w.

Definition loadSessions (w : World) : World :=
  set_sessions (getLastSessions 10 (localStorage w)) w.

Definition persistState (e : Env) (currentState : TimekeeperState)
    (w : World) : World :=
  let stateToSave :=
    PersistedState.mk
      currentState
      (TimekeeperConfig.activityType (env_config e))
      (targetDurationMs e)
      (startTimestampRef w)
      (pausedAtRef w)
      (accumulatedPausedMsRef w)
      (armingStartTimestampRef w)
      (warningTriggeredRef w)
      (mute (env_stateData e)) in
  set_localStorage (saveState stateToSave (localStorage w)) w.

Definition clearTimer (w : World) : World :=
  set_persistIntervalRef None (set_intervalRef None w).

(** The [const session: Session = { ... }] that [finishSession] and
    [abortSession] build, with [endTime], [effectiveDuration] and
    [overdueMs] as computed in front of it. *)
Definition sessionRecord (e : Env) (st : SessionStatus) (now : Z)
    (startTs : Z) (acc : Z) (sid : string) : Session.t :=
  let endTime := now in
  let effectiveDuration := endTime - startTs - acc in
  let overdue :=
    if effectiveDuration >? targetDurationMs e
    then effectiveDuration - targetDurationMs e else 0 in
  Session.mk sid
    (TimekeeperConfig.activityType (env_config e))
    (targetDurationMs e)
    startTs
    endTime
    st
    effectiveDuration
    (if overdue >? 0 then Some overdue else None).

(** The block [if (startTimestampRef.current && sessionIdRef.current)
    { ... saveSession(session); loadSessions(); }], which [finishSession]
    and [abortSession] share up to the [status] they write. *)
Definition commitSession (e : Env) (st : SessionStatus) (now : Z)
    (w : World) : World :=
  match startTimestampRef w, sessionIdRef w with
  | Some startTs, Some sid =>
      if truthy (Some startTs) && truthyStr (Some sid) then
        let session :=
          sessionRecord e st now startTs (accumulatedPausedMsRef w) sid in
        loadSessions
          (set_localStorage (saveSession session (localStorage w)) w)
      else w
  | _, _ => w
  end.

(** The block under [// Reset refs] of [finishSession] and [abortSession],
    which [resetSession] repeats. *)
Definition resetRefs (w : World) : World :=
  let w := set_startTimestampRef None w in
  let w := set_pausedAtRef None w in
  let w := set_accumulatedPausedMsRef 0 w in
  let w := set_armingStartTimestampRef None w in
  let w := set_warningTriggeredRef false w in
  let w := set_finishAlarmTriggeredRef false w in
  set_sessionIdRef None w.

Definition clearSnapshot (w : World) : World :=
  set_localStorage (clearState (localStorage w)) w.

Definition finishSession (e : Env) (now : Z) (w : World) : World :=
  let w := clearTimer w in
  let w := commitSession e status_finished now w in
  let w := setStateData
             (fun prev =>
                with_isWarning false
                  (with_remainingMs 0 (with_state finished prev))) w in
  let w := playIfAudible e beepFinishAlarm w in
  let w := resetRefs w in
  clearSnapshot w.

(** [startTimer(duration)]: installs the two intervals and persists. *)
Definition startTimer (e : Env) (duration : Z) (w : World) : World :=
  let w := clearTimer w in
  let w := set_intervalRef (Some (TimerInterval e duration)) w in
  let w := set_persistIntervalRef (Some e) w in
  persistState e running w.

(** The callback [startTimer] gives to [setInterval(..., TICK_INTERVAL)]. *)
Definition timerTick (e : Env) (duration : Z) (now : Z) (w : World)
    : World :=
  match startTimestampRef w with
  | None => w
  | Some startTs =>
      if negb (truthy (Some startTs)) then w else
      let elapsed := now - startTs - accumulatedPausedMsRef w in
      let remaining := duration - elapsed in
      let w :=
        if negb (warningTriggeredRef w) && (remaining >? 0)
           && (remaining <=? warningThresholdMs e)
        then
          let w := set_warningTriggeredRef true w in
          let w := setStateData (with_isWarning true) w in
          playIfAudible e beepWarningTriple w
        else w in
      let w :=
        if negb (finishAlarmTriggeredRef w) && (remaining <=? 0)
        then
          let w := set_finishAlarmTriggeredRef true w in
          playIfAudible e beepFinishAlarm w
        else w in
      setStateData (with_remainingMs remaining) w
  end.

(** The callback [startTimer] gives to
    [setInterval(..., PERSIST_INTERVAL)]. *)
Definition persistTick (e : Env) (w : World) : World :=
  persistState e running w.

Definition transitionToRunning (e : Env) (duration : Z) (now : Z)
    (rnd : string) (w : World) : World :=
  let w := setStateData
             (fun prev => with_armingCountdown 0 (with_state running prev))
             w in
  let w := set_startTimestampRef (Some now) w in
  let w := set_accumulatedPausedMsRef 0 w in
  let w := set_pausedAtRef None w in
  let w := set_sessionIdRef (Some (generateId now rnd)) w in
  let w := playIfAudible e beepDouble w in
  startTimer e duration w.

(** [startArmingTimer(duration)]; [e] is the render this callback was
    built in, which is also where its [transitionToRunning] comes from. *)
Definition startArmingTimer (e : Env) (duration : Z) (now : Z)
    (w : World) : World :=
  let w := clearTimer w in
  let w := set_armingStartTimestampRef (Some now) w in
  let w := set_warningTriggeredRef false w in
  let w := set_finishAlarmTriggeredRef false w in
  let w := set_lastCountdownRef None w in
  set_intervalRef (Some (ArmingInterval e duration)) w.

Definition optZ_eqb (a b : option Z) : bool :=
  match a, b with
  | Some x, Some y => x =? y
  | None, None => true
  | _, _ => false
  end.

(** The callback [startArmingTimer] gives to [setInterval(..., 100)]. *)
Definition armingTick (e : Env) (duration : Z) (now : Z) (rnd : string)
    (w : World) : World :=
  let elapsed := now - orNum (armingStartTimestampRef w) now in
  let remaining := ARMING_DURATION - elapsed in
  let countdown := ceilDiv1000 remaining in
  let w :=
    if (countdown >? 0)
       && negb (optZ_eqb (Some countdown) (lastCountdownRef w))
       && audible e
    then set_lastCountdownRef (Some countdown) (play beepOnce w)
    else w in
  if remaining <=? 0 then
    transitionToRunning e duration now rnd (clearTimer w)
  else
    setStateData (with_armingCountdown (Z.max 0 countdown)) w.

Definition startSession (e : Env) (now : Z) (w : World) : World :=
  if negb (TimekeeperState_eqb (state (env_stateData e)) idle) then w else
  let w := setStateData (with_state arming) w in
  let w := startArmingTimer (armingEnv w) (targetDurationMs e) now w in
  persistState e arming w.

Definition pauseSession (e : Env) (now : Z) (w : World) : World :=
  if negb (TimekeeperState_eqb (state (env_stateData e)) running) then w
  else
  let w := clearTimer w in
  let w := set_pausedAtRef (Some now) w in
  let w := setStateData (with_state paused) w in
  persistState e paused w.

Definition resumeSession (e : Env) (now : Z) (w : World) : World :=
  if negb (TimekeeperState_eqb (state (env_stateData e)) paused)
     || negb (truthy (startTimestampRef w))
     || negb (truthy (pausedAtRef w))
  then w else
  match startTimestampRef w, pausedAtRef w with
  | Some startTs, Some pausedTs =>
      let w := set_accumulatedPausedMsRef
                 (accumulatedPausedMsRef w + (now - pausedTs)) w in
      let w := set_pausedAtRef None w in
      let w := setStateData (with_state running) w in
      let nowElapsed := now - startTs - accumulatedPausedMsRef w in
      let remaining := targetDurationMs e - nowElapsed in
      if remaining <=? 0 then finishSession e now w
      else startTimer e (targetDurationMs e) w
  | _, _ => w
  end.

Definition abortSession (e : Env) (now : Z) (w : World) : World :=
  if TimekeeperState_eqb (state (env_stateData e)) idle
     || TimekeeperState_eqb (state (env_stateData e)) finished
  then w else
  let w := clearTimer w in
  let w := commitSession e status_aborted now w in
  let w := setStateData
             (fun prev =>
                with_armingCountdown 0
                  (with_isWarning false (with_state aborted prev))) w in
  let w := playIfAudible e beepAbortLow w in
  let w := resetRefs w in
  clearSnapshot w.

Definition resetSession (e : Env) (w : World) : World :=
  let w := clearTimer w in
  let w := set_stateData (mk idle 0 0 false (mute (env_stateData e))) w in
  let w := resetRefs w in
  clearSnapshot w.

(** The updater calls [persistState(stateData.state)] of the render the
    callback closes over, then flips the flag. *)
Definition toggleMute (e : Env) (w : World) : World :=
  let w := persistState e (state (env_stateData e)) w in
  setStateData (fun prev => with_mute (negb (mute prev)) prev) w.

Definition enableAudio (w : World) : World :=
  set_audioEnabled true w.

Definition clearHistory (w : World) : World :=
  loadSessions (set_localStorage (clearSessions (localStorage w)) w).

End Callbacks.

(** ** Renders, the mount effect and events *)

(** The values the hook body of the current render binds. *)
Definition currentEnv (w : World) : Env :=
  mkEnv (config w) (stateData w) (audioEnabled w).

(** [useCallback(..., [clearTimer, stateData.mute, audioEnabled])] of
    [startArmingTimer]: a render rebuilds the callback only when [mute] or
    [audioEnabled] differ from those of the render that built it. *)
Definition render (w : World) : World :=
  if Bool.eqb (TimekeeperStateData.mute (env_stateData (armingEnv w)))
              (TimekeeperStateData.mute (stateData w))
     && Bool.eqb (env_audioEnabled (armingEnv w)) (audioEnabled w)
  then w
  else set_armingEnv (currentEnv w) w.

(** The [useState] initial values. *)
Definition initialConfig : TimekeeperConfig.t :=
  TimekeeperConfig.mk "Loading" 5 0 2.

Definition initialStateData : TimekeeperStateData.t :=
  TimekeeperStateData.mk idle 0 0 false false.

Definition firstEnv : Env := mkEnv initialConfig initialStateData false.

(** The first render over a given [localStorage]. *)
Definition initialWorld (ls : LocalStorage.t) : World :=
  mkWorld initialConfig initialStateData [] false
          None None None None 0 None false None None false
          firstEnv ls [].

(** [useEffect(() => { ... }, [])]: runs once, after the first render, with
    the callbacks of that render ([e] is [firstEnv]). *)
Definition mountEffect (e : Env) (now : Z) (rnd : string) (w : World)
    : World :=
  let w :=
    match getState (localStorage w) with
    | None => w
    | Some savedState =>
        if TimekeeperState_eqb (PersistedState.state savedState) idle then w
        else
        let w :=
          set_config
            (TimekeeperConfig.mk
               (orStr (PersistedState.activityType savedState)
                      (TimekeeperConfig.activityType (config w)))
               (TimekeeperConfig.targetMinutes (config w))
               (TimekeeperConfig.targetSeconds (config w))
               (TimekeeperConfig.warningThresholdMinutes (config w))) w in
        let w :=
          setStateData
            (fun prev =>
               with_mute (PersistedState.mute savedState)
                 (with_state (PersistedState.state savedState) prev)) w in
        let w :=
          set_startTimestampRef (PersistedState.startTimestamp savedState) w in
        let w := set_pausedAtRef (PersistedState.pausedAt savedState) w in
        let w :=
          set_accumulatedPausedMsRef
            (PersistedState.accumulatedPausedMs savedState) w in
        let w :=
          set_armingStartTimestampRef
            (PersistedState.armingStartTimestamp savedState) w in
        let w :=
          set_warningTriggeredRef
            (PersistedState.warningTriggered savedState) w in
        match PersistedState.state savedState with
        | running =>
            match startTimestampRef w with
            | Some startTs =>
                if negb (truthy (Some startTs)) then w else
                let elapsed := now - startTs - accumulatedPausedMsRef w in
                let remaining :=
                  PersistedState.targetDurationMs savedState - elapsed in
                if remaining <=? 0 then finishSession e now w
                else startTimer e (PersistedState.targetDurationMs savedState) w
            | None => w
            end
        | arming =>
            match armingStartTimestampRef w with
            | Some armTs =>
                if negb (truthy (Some armTs)) then w else
                let elapsed := now - armTs in
                let remaining := ARMING_DURATION - elapsed in
                if remaining <=? 0 then
                  transitionToRunning
                    e (PersistedState.targetDurationMs savedState) now rnd w
                else
                  startArmingTimer
                    e (PersistedState.targetDurationMs savedState) now w
            | None => w
            end
        | _ => w
        end
    end in
  loadSessions w.

(** The hook after its first render and mount effect. *)
Definition mount (ls : LocalStorage.t) (now : Z) (rnd : string) : World :=
  render (mountEffect firstEnv now rnd (initialWorld ls)).

(** What can happen to a mounted hook: a call of one of the functions it
    returns, or one of its two intervals firing. [IntervalTick] carries the
    random suffix [generateId] would draw. *)
Inductive Event : Type :=
| SetConfig (c : TimekeeperConfig.t)
| StartSession
| PauseSession
| ResumeSession
| AbortSession
| FinishSession
| ResetSession
| ToggleMute
| EnableAudio
| ClearHistory
| IntervalTick (rnd : string)
| PersistTick.

(** An event runs the callbacks of the latest render; an interval runs the
    closure it was installed with. *)
Definition handle (ev : Event) (now : Z) (w : World) : World :=
  let e := currentEnv w in
  match ev with
  | SetConfig c => set_config c w
  | StartSession => startSession e now w
  | PauseSession => pauseSession e now w
  | ResumeSession => resumeSession e now w
  | AbortSession => abortSession e now w
  | FinishSession => finishSession e now w
  | ResetSession => resetSession e w
  | ToggleMute => toggleMute e w
  | EnableAudio => enableAudio w
  | ClearHistory => clearHistory w
  | IntervalTick rnd =>
      match intervalRef w with
      | Some (ArmingInterval ce duration) => armingTick ce duration now rnd w
      | Some (TimerInterval ce duration) => timerTick ce duration now w
      | None => w
      end
  | PersistTick =>
      match persistIntervalRef w with
      | Some ce => persistTick ce w
      | None => w
      end
  end.

(** One event followed by the render it causes. *)
Definition step (w : World) (ev : Z * Event) : World :=
  render (handle (snd ev) (fst ev) w).

(** A sequence of timestamped events. *)
Definition run (w : World) (evs : list (Z * Event)) : World :=
  fold_left step evs w.

(** Worlds a mounted hook can be in. *)
Inductive reachable : World -> Prop :=
| reachable_mount ls now rnd : reachable (mount ls now rnd)
| reachable_step w ev : reachable w -> reachable (step w ev).

(** Observations used by the statements below. *)
Definition stateOf (w : World) : TimekeeperState :=
  TimekeeperStateData.state (stateData w).

Definition storedSessions (w : World) : list Session.t :=
  getSessions (localStorage w).

Definition snapshot (w : World) : option PersistedState.t :=
  getState (localStorage w).

(** [target - (now - startedAt - accumulatedPausedDuration)], the remaining
    time as the hook recomputes it everywhere. *)
Definition remainingAt (target startTs acc now : Z) : Z :=
  target - (now - startTs - acc).

(** ** Scenarios *)

Definition emptyStorage : LocalStorage.t := LocalStorage.mk [] None.

(** Ten seconds of "Repair", warning threshold 0. *)
Definition tenSeconds : TimekeeperConfig.t :=
  TimekeeperConfig.mk "Repair" 0 10 0.

(** A fresh page, the default five minutes: started at 1000, the arming
    window over at 4000, so [startedAt = 4000]. *)
Definition runningDefault : World :=
  run (mount emptyStorage 0 "")
      [(1000, StartSession); (4000, IntervalTick "k3x9")].

(** A fresh page configured for ten seconds with sound enabled: started at
    1000, running from 4000. *)
Definition runningTenSeconds : World :=
  run (mount emptyStorage 0 "")
      [(100, SetConfig tenSeconds); (200, EnableAudio);
       (1000, StartSession); (4000, IntervalTick "k3x9")].

(** The clock is 15000 past [startedAt] when the next tick fires. *)
Definition overdueTick : World :=
  step runningTenSeconds (19000, IntervalTick "").

(** The user then pauses and resumes the overdue session. *)
Definition overduePauseResume : World :=
  run overdueTick [(20000, PauseSession); (21000, ResumeSession)].

(** The page is reloaded over the storage [runningTenSeconds] left, at a
    given time. *)
Definition reloadedAt (now : Z) : World :=
  mount (localStorage runningTenSeconds) now "".

(** Pause at elapsed 10000, then five seconds later resume or abort. *)
Definition pausedDefault : World :=
  step runningDefault (14000, PauseSession).

Definition abortedWhilePaused : World :=
  step pausedDefault (19000, AbortSession).

(** Abort during the arming countdown. *)
Definition armingDefault : World :=
  step (mount emptyStorage 0 "") (1000, StartSession).

Definition abortedWhileArming : World :=
  step armingDefault (2000, AbortSession).


(** Sound is enabled first and the ten seconds with warning threshold 0 are
    configured afterwards: [startArmingTimer] is still the callback of the
    render that enabled the sound, and so is the [startTimer] it reaches. *)
Definition configuredAfterSound : World :=
  run (mount emptyStorage 0 "")
      [(100, EnableAudio); (200, SetConfig tenSeconds);
       (1000, StartSession); (4000, IntervalTick "k3x9");
       (5000, IntervalTick "")].

(** The invariant behind the guard of [commitSession]: a session id exists
    only between [transitionToRunning] and the end of the session. *)
Definition sessionIdOnlyWhileCounting (w : World) : Prop :=
  sessionIdRef w = None \/ stateOf w = running \/ stateOf w = paused.

(** ** [components/Timekeeper.tsx]: the pure helpers *)

(** [n.toString()] of an integer. *)
Definition numToString (n : Z) : string :=
  NilZero.string_of_int (Z.to_int n).

Fixpoint zeros (n : nat) : string :=
  match n with
  | O => ""
  | S n' => String.append "0" (zeros n')
  end.

(** [s.padStart(n, '0')] *)
Definition padStart0 (n : nat) (s : string) : string :=
  String.append (zeros (n - String.length s)) s.

(** The four numbers [formatTime] computes: [Math.floor] of a quotient is
    [Z.div], the remainder [%] takes the sign of the dividend and is
    [Z.rem]. *)
Module ClockFields.
Record t : Type := mk {
  hours : Z;
  minutes : Z;
  seconds : Z;
  milliseconds : Z
}.
End ClockFields.

Definition clockFields (ms : Z) : ClockFields.t :=
  let totalSeconds := ms / 1000 in
  let milliseconds := Z.rem ms 1000 in
  let hours := totalSeconds / 3600 in
  let minutes := Z.rem totalSeconds 3600 / 60 in
  let seconds := Z.rem totalSeconds 60 in
  ClockFields.mk hours minutes seconds milliseconds.

Definition formatTime (ms : Z) : string :=
  let f := clockFields ms in
  let tail :=
    String.append (padStart0 2 (numToString (ClockFields.seconds f)))
      (String.append "."
         (padStart0 3 (numToString (ClockFields.milliseconds f)))) in
  if ClockFields.hours f >? 0 then
    String.append (numToString (ClockFields.hours f))
      (String.append ":"
         (String.append (padStart0 2 (numToString (ClockFields.minutes f)))
            (String.append ":" tail)))
  else
    String.append (numToString (ClockFields.minutes f))
      (String.append ":" tail).

Definition formatDuration (ms : Z) : string :=
  let totalSeconds := ms / 1000 in
  let minutes := totalSeconds / 60 in
  let seconds := Z.rem totalSeconds 60 in
  String.append (numToString minutes)
    (String.append "m "
       (String.append (numToString seconds) "s")).

(** The [onChange] of the warning-threshold input:
    [setConfig({ ...config, warningThresholdMinutes:
    parseInt(e.target.value) || 2 })]. [parsed] is what [parseInt] returned,
    [None] for [NaN]. *)
Definition onChangeWarningThreshold (parsed : option Z)
    (c : TimekeeperConfig.t) : TimekeeperConfig.t :=
  TimekeeperConfig.mk
    (TimekeeperConfig.activityType c)
    (TimekeeperConfig.targetMinutes c)
    (TimekeeperConfig.targetSeconds c)
    (orNum parsed 2).

(** ** Invariants of the mounted hook *)

(** The two timer events. *)
Definition isTimerEvent (ev : Event) : bool :=
  match ev with
  | IntervalTick _ | PersistTick => true
  | _ => false
  end.

(** An interval is installed only in the state it belongs to: the arming
    countdown while arming, the countdown tick and the persist interval
    while running. *)
Definition timersMatchState (w : World) : Prop :=
  match intervalRef w with
  | Some (ArmingInterval _ _) => stateOf w = arming
  | Some (TimerInterval _ _) => stateOf w = running
  | None => True
  end
  /\ match persistIntervalRef w with
     | Some _ => stateOf w = running
     | None => True
     end.

(** The history shown is the head of the history stored. *)
Definition historyInSync (w : World) : Prop :=
  sessions w = getLastSessions 10 (localStorage w).

(** The sound was never enabled: no render, memoised callback or installed
    interval has seen [audioEnabled], and nothing was played. *)
Definition neverEnabled (w : World) : Prop :=
  audioEnabled w = false
  /\ env_audioEnabled (armingEnv w) = false
  /\ match intervalRef w with
     | Some (ArmingInterval e _) | Some (TimerInterval e _) =>
         env_audioEnabled e = false
     | None => True
     end
  /\ beeps w = [].

(** The number of times a beep was played. *)
Definition played (b : Beep) (w : World) : nat :=
  count_occ Beep_eq_dec (beeps w) b.

(** What a warning and a finish alarm can still add to the alerts played:
    one while the flag is down, nothing once it is up. *)
Definition warningBudget (w : World) : nat :=
  played beepWarningTriple w + (if warningTriggeredRef w then 0 else 1).

Definition finishBudget (w : World) : nat :=
  played beepFinishAlarm w + (if finishAlarmTriggeredRef w then 0 else 1).

(** The session-scoped refs against the state tag, as they stand in a hook
    that mounted without a snapshot: the start timestamp and the session
    id exist exactly while Running or Paused, the pause timestamp exactly
    while Paused, and outside a session the accumulated pause is zero. *)
Definition sessionFieldsMatchState (w : World) : Prop :=
  match stateOf w with
  | running =>
      startTimestampRef w <> None /\ sessionIdRef w <> None
      /\ pausedAtRef w = None
  | paused =>
      startTimestampRef w <> None /\ sessionIdRef w <> None
      /\ pausedAtRef w <> None
  | _ =>
      startTimestampRef w = None /\ sessionIdRef w = None
      /\ pausedAtRef w = None /\ accumulatedPausedMsRef w = 0
  end.

(** No interval is installed and none can be installed again without a new
    start: the controller is neither Running nor Paused. *)
Definition sessionOver (w : World) : bool :=
  match intervalRef w with
  | Some _ => false
  | None =>
      match stateOf w with
      | running | paused => false
      | _ => true
      end
  end.

(** The warnings played plus the one the current session may still play. *)
Definition sessionWarningBudget (w : World) : nat :=
  played beepWarningTriple w
  + (if sessionOver w then 0
     else if warningTriggeredRef w then 0 else 1).

(** The default five minutes with sound enabled, running from 4000; the
    warning threshold is two minutes. *)
Definition runningWithSound : World :=
  run (mount emptyStorage 0 "")
      [(200, EnableAudio); (1000, StartSession); (4000, IntervalTick "k3x9")].

(** Ticks, a pause and a resume around the warning threshold. *)
Definition aroundThreshold : list (Z * Event) :=
  [(185000, IntervalTick ""); (186000, PauseSession);
   (200000, ResumeSession); (200016, IntervalTick "");
   (250000, IntervalTick "")].


(** The ten-second session after a reload at 5000: a tick at 6000, a pause
    at 6000 and a resume at 9000. *)
Definition reloadedTick : World :=
  step (reloadedAt 5000) (6000, IntervalTick "").

Definition reloadedPaused : World :=
  step reloadedTick (6000, PauseSession).

Definition reloadedResumed : World :=
  step reloadedPaused (9000, ResumeSession).

(** * Properties *)

#[local] Arguments Z.add : simpl never.
#[local] Arguments Z.sub : simpl never.
#[local] Arguments Z.mul : simpl never.
#[local] Arguments Z.opp : simpl never.
#[local] Arguments Z.div : simpl never.
#[local] Arguments Z.max : simpl never.
#[local] Arguments Z.leb : simpl never.
#[local] Arguments Z.gtb : simpl never.
#[local] Arguments Z.eqb : simpl never.
#[local] Arguments String.eqb : simpl never.
#[local] Arguments firstn : simpl never.
#[local] Arguments generateId : simpl never.

Ltac break_if :=
  match goal with
  | |- context [if ?b then _ else _] => destruct b eqn:?
  | |- context [match ?x with _ => _ end] => destruct x eqn:?
  end.

Ltac unfold_callbacks :=
  unfold handle, startSession, pauseSession, resumeSession, abortSession,
    resetSession, toggleMute, enableAudio, clearHistory, armingTick,
    timerTick, persistTick, transitionToRunning, startArmingTimer,
    startTimer, finishSession, commitSession, playIfAudible, persistState,
    loadSessions, clearSnapshot, resetRefs, clearTimer, setStateData, play.

Ltac no_cond t :=
  lazymatch t with
  | context [if _ then _ else _] => fail
  | context [match _ with _ => _ end] => fail
  | _ => idtac
  end.

(** Case analysis on a condition that holds no other condition. *)
Ltac break_inner :=
  match goal with
  | |- context [if ?b then _ else _] => no_cond b; destruct b eqn:?
  | |- context [match ?x with _ => _ end] => no_cond x; destruct x eqn:?
  end.

(** ** The state tag *)

Lemma TimekeeperState_eqb_spec a b :
  reflect (a = b) (TimekeeperState_eqb a b).
Proof. destruct a, b; constructor; congruence. Qed.

(** ** Renders and the session id *)

(** A render touches nothing but the memoised [startArmingTimer]. *)
Lemma render_frame (w : World) :
  stateData (render w) = stateData w
  /\ sessionIdRef (render w) = sessionIdRef w
  /\ localStorage (render w) = localStorage w
  /\ beeps (render w) = beeps w
  /\ config (render w) = config w.
Proof.
  unfold render. break_if; cbn; auto.
Qed.

Lemma handle_sessionId_inv ev now w :
  sessionIdOnlyWhileCounting w ->
  sessionIdOnlyWhileCounting (handle ev now w).
Proof.
  unfold sessionIdOnlyWhileCounting, stateOf.
  intros H.
  destruct ev; unfold_callbacks; cbn; repeat break_if; cbn; auto.
  (* startSession: the guard passed, so the state was idle *)
  left.
  destruct (TimekeeperState_eqb_spec
              (TimekeeperStateData.state (stateData w)) idle) as [E|E];
    [|discriminate].
  destruct H as [H|[H|H]]; congruence.
Qed.

Lemma mount_sessionId_inv ls now rnd :
  sessionIdOnlyWhileCounting (mount ls now rnd).
Proof.
  unfold sessionIdOnlyWhileCounting, stateOf, mount.
  destruct (render_frame (mountEffect firstEnv now rnd (initialWorld ls)))
    as (-> & -> & _).
  unfold mountEffect. unfold_callbacks. cbn. repeat break_if; cbn; auto.
Qed.

Lemma reachable_sessionId_inv w :
  reachable w -> sessionIdOnlyWhileCounting w.
Proof.
  induction 1 as [ls now rnd | w ev _ IH].
  - apply mount_sessionId_inv.
  - unfold step, sessionIdOnlyWhileCounting, stateOf.
    destruct (render_frame (handle (snd ev) (fst ev) w)) as (-> & -> & _).
    apply handle_sessionId_inv, IH.
Qed.

Lemma reachable_run w evs : reachable w -> reachable (run w evs).
Proof.
  revert w. induction evs as [|ev evs IH]; intros w Hw; cbn.
  - exact Hw.
  - apply IH. constructor. exact Hw.
Qed.

(** ** Reset *)

(** C10: [resetSession] clears the session-scoped data only. It sets the
    state to idle, zeroes [remainingMs] and [armingCountdown], clears the
    warning flag, every session timestamp, the session id and the
    accumulated pause, cancels both intervals and removes the persisted
    snapshot; the mute flag, the configuration (activity type, target
    duration, warning threshold), the audio gate, the session history and
    the audio calls made so far are left as they were. *)
Theorem resetSession_clears_session_scope (now : Z) (w : World) :
  let w' := handle ResetSession now w in
  stateData w'
  = TimekeeperStateData.mk idle 0 0 false
      (TimekeeperStateData.mute (stateData w))
  /\ startTimestampRef w' = None
  /\ pausedAtRef w' = None
  /\ accumulatedPausedMsRef w' = 0
  /\ armingStartTimestampRef w' = None
  /\ warningTriggeredRef w' = false
  /\ finishAlarmTriggeredRef w' = false
  /\ sessionIdRef w' = None
  /\ snapshot w' = None
  /\ intervalRef w' = None
  /\ persistIntervalRef w' = None
  /\ config w' = config w
  /\ targetDurationMs (currentEnv w') = targetDurationMs (currentEnv w)
  /\ warningThresholdMs (currentEnv w') = warningThresholdMs (currentEnv w)
  /\ audioEnabled w' = audioEnabled w
  /\ storedSessions w' = storedSessions w
  /\ sessions w' = sessions w
  /\ beeps w' = beeps w.
Proof.
  unfold targetDurationMs, warningThresholdMs, storedSessions, snapshot.
  cbn. repeat apply conj; reflexivity.
Qed.

(** ** Guards *)

(** C5 (amended): a control operation called from a state its guard rejects
    changes nothing: start outside idle, pause outside running, resume
    outside paused, abort in idle or finished. Reset has no guard: from
    every state, Arming, Running and Paused included, it returns the
    controller to idle. *)
Theorem invalid_source_is_noop (now : Z) (w : World) :
  (stateOf w <> idle -> handle StartSession now w = w)
  /\ (stateOf w <> running -> handle PauseSession now w = w)
  /\ (stateOf w <> paused -> handle ResumeSession now w = w)
  /\ (stateOf w = idle \/ stateOf w = finished ->
      handle AbortSession now w = w)
  /\ stateOf (handle ResetSession now w) = idle.
Proof.
  unfold stateOf, handle, startSession, pauseSession, resumeSession,
    abortSession.
  cbn.
  repeat apply conj.
  - intros H.
    destruct (TimekeeperState_eqb_spec
                (TimekeeperStateData.state (stateData w)) idle);
      [contradiction|reflexivity].
  - intros H.
    destruct (TimekeeperState_eqb_spec
                (TimekeeperStateData.state (stateData w)) running);
      [contradiction|reflexivity].
  - intros H.
    destruct (TimekeeperState_eqb_spec
                (TimekeeperStateData.state (stateData w)) paused);
      [contradiction|reflexivity].
  - intros [H|H]; rewrite H; reflexivity.
  - reflexivity.
Qed.

(** The guards at work: pause, resume and abort on a fresh idle page, start
    on a running one. *)
Lemma invalid_source_is_noop_witness :
  let w0 := mount emptyStorage 0 "" in
  handle PauseSession 5 w0 = w0
  /\ handle ResumeSession 5 w0 = w0
  /\ handle AbortSession 5 w0 = w0
  /\ handle StartSession 5000 runningDefault = runningDefault.
Proof.
  intros w0.
  destruct (invalid_source_is_noop 5 w0) as (_ & Hp & Hr & Ha & _).
  destruct (invalid_source_is_noop 5000 runningDefault) as (Hs & _).
  repeat apply conj.
  - apply Hp. vm_compute. discriminate.
  - apply Hr. vm_compute. discriminate.
  - apply Ha. left. reflexivity.
  - apply Hs. vm_compute. discriminate.
Defined.

(** C5, as stated, fails: reset called while Running does not leave the
    controller unchanged, it puts it back to idle and drops the session. *)
Lemma reset_while_running_is_effective :
  stateOf runningDefault = running
  /\ stateOf (step runningDefault (5000, ResetSession)) = idle
  /\ step runningDefault (5000, ResetSession) <> runningDefault.
Proof.
  split; [reflexivity|]. split; [reflexivity|].
  intros H. apply (f_equal stateOf) in H. vm_compute in H. discriminate.
Qed.

(** ** Abort *)

(** Without a session id the commit block is skipped. *)
Lemma commitSession_without_id e st now w :
  sessionIdRef w = None -> commitSession e st now w = w.
Proof.
  intros H. unfold commitSession. rewrite H.
  destruct (startTimestampRef w); reflexivity.
Qed.

(** C7 (amended): abort called while Arming moves the controller to
    Aborted, cancels the arming countdown, clears the snapshot and fires
    the abort alert (when sound is enabled and not muted), but commits no
    Session Record: during arming no session id exists yet, and the guard
    of the commit block needs one. *)
Theorem abort_while_arming (now : Z) (w : World) :
  reachable w ->
  stateOf w = arming ->
  let w' := handle AbortSession now w in
  stateOf w' = aborted
  /\ storedSessions w' = storedSessions w
  /\ sessions w' = sessions w
  /\ beeps w'
     = ((if audible (currentEnv w) then [beepAbortLow] else []) ++ beeps w)%list
  /\ snapshot w' = None
  /\ intervalRef w' = None
  /\ persistIntervalRef w' = None.
Proof.
  intros Hr Hs.
  assert (Hid : sessionIdRef w = None).
  { destruct (reachable_sessionId_inv w Hr) as [H|[H|H]];
      [exact H | congruence | congruence]. }
  unfold stateOf in Hs.
  unfold handle, abortSession, stateOf, storedSessions, snapshot. cbn.
  rewrite Hs. cbn.
  rewrite (commitSession_without_id _ _ _ (clearTimer w)) by exact Hid.
  unfold playIfAudible.
  destruct (audible (currentEnv w)); cbn; repeat apply conj; reflexivity.
Qed.

(** The theorem at the page that was started at 1000 and aborted at 2000. *)
Lemma abort_while_arming_witness :
  reachable armingDefault
  /\ stateOf armingDefault = arming
  /\ stateOf (handle AbortSession 2000 armingDefault) = aborted
  /\ storedSessions (handle AbortSession 2000 armingDefault) = []
  /\ snapshot (handle AbortSession 2000 armingDefault) = None.
Proof.
  assert (Hr : reachable armingDefault).
  { unfold armingDefault. apply reachable_step, reachable_mount. }
  assert (Hs : stateOf armingDefault = arming) by reflexivity.
  destruct (abort_while_arming 2000 armingDefault Hr Hs)
    as (H1 & H2 & _ & _ & H5 & _).
  repeat apply conj; [exact Hr | exact Hs | exact H1 | | exact H5].
  rewrite H2. reflexivity.
Defined.

(** C7, as stated, fails: after abort during the arming countdown the
    history holds no record, aborted or other. *)
Lemma abort_while_arming_commits_nothing :
  stateOf armingDefault = arming
  /\ stateOf abortedWhileArming = aborted
  /\ storedSessions abortedWhileArming = []
  /\ ~ (exists r, In r (storedSessions abortedWhileArming)
                  /\ Session.status r = status_aborted).
Proof.
  repeat apply conj; try reflexivity.
  intros (r & Hin & _). vm_compute in Hin. exact Hin.
Qed.

(** ** Session records *)

(** The record the commit block builds. *)
Lemma sessionRecord_effectiveDuration e st now startTs acc sid :
  let r := sessionRecord e st now startTs acc sid in
  Session.effectiveDurationMs r = Session.endAt r - Session.startAt r - acc
  /\ Session.endAt r = now
  /\ Session.startAt r = startTs
  /\ Session.status r = st
  /\ Session.id r = sid.
Proof. cbn. repeat apply conj; reflexivity. Qed.


Lemma generateId_nonempty (now : Z) (rnd : string) :
  truthyStr (Some (generateId now rnd)) = true.
Proof.
  unfold truthyStr, generateId.
  destruct (NilZero.string_of_int (Z.to_int now)); reflexivity.
Qed.






(** ** Pause and resume *)

(** Whatever alerts a tick fires, it ends by publishing the remaining time
    it recomputed. *)
Lemma timerTick_remainingMs e d now w s :
  startTimestampRef w = Some s -> s <> 0 ->
  TimekeeperStateData.remainingMs (stateData (timerTick e d now w))
  = remainingAt d s (accumulatedPausedMsRef w) now.
Proof.
  intros Hs Hs0. apply Z.eqb_neq in Hs0.
  unfold timerTick, truthy, remainingAt. rewrite Hs, Hs0. cbn.
  unfold playIfAudible, setStateData, play.
  repeat break_if; reflexivity.
Qed.

(** Resume in terms of the target of the current render: called while
    Paused, with the start and pause timestamps set, it adds exactly
    [now - pausedAt] to the accumulated pause, so the remaining time
    recomputed at the resume from that target equals the remaining time
    the same target gives at the instant of the pause. When that is
    positive the controller is Running again with [pausedAt] cleared and
    the countdown installed over that target; when it is not, the
    controller goes to Finished directly. The target of the current
    render need not be the duration the paused countdown ran on: after a
    reload it is not. *)
Theorem resume_preserves_remaining (now : Z) (w : World) (s p : Z) :
  stateOf w = paused ->
  startTimestampRef w = Some s -> s <> 0 ->
  pausedAtRef w = Some p -> p <> 0 ->
  let target := targetDurationMs (currentEnv w) in
  let acc := accumulatedPausedMsRef w in
  let atPause := remainingAt target s acc p in
  let w' := handle ResumeSession now w in
  remainingAt target s (acc + (now - p)) now = atPause
  /\ (0 < atPause ->
      stateOf w' = running
      /\ accumulatedPausedMsRef w' = acc + (now - p)
      /\ pausedAtRef w' = None
      /\ startTimestampRef w' = Some s
      /\ intervalRef w' = Some (TimerInterval (currentEnv w) target)
      /\ forall rnd,
           TimekeeperStateData.remainingMs
             (stateData (handle (IntervalTick rnd) now w'))
           = atPause)
  /\ (atPause <= 0 ->
      stateOf w' = finished
      /\ pausedAtRef w' = None
      /\ TimekeeperStateData.remainingMs (stateData w') = 0
      /\ snapshot w' = None
      /\ intervalRef w' = None).
Proof.
  intros Hst Hs Hs0 Hp Hp0 target acc atPause w'.
  assert (Heq : remainingAt target s (acc + (now - p)) now = atPause).
  { unfold atPause, remainingAt. lia. }
  assert (Hw' : w' =
    let w1 := setStateData (with_state running)
                (set_pausedAtRef None
                   (set_accumulatedPausedMsRef (acc + (now - p)) w)) in
    if atPause <=? 0 then finishSession (currentEnv w) now w1
    else startTimer (currentEnv w) target w1).
  { unfold w', handle, resumeSession, truthy. unfold stateOf in Hst.
    cbn. rewrite Hst, Hs, Hp.
    apply Z.eqb_neq in Hs0. apply Z.eqb_neq in Hp0. rewrite Hs0, Hp0. cbn.
    fold target. fold acc.
    change (target - (now - s - (acc + (now - p))))
      with (remainingAt target s (acc + (now - p)) now).
    rewrite Heq. reflexivity. }
  split; [exact Heq|]. split.
  - intros Hpos. rewrite Hw'. cbv zeta.
    destruct (Z.leb_spec atPause 0) as [Hle|_]; [lia|].
    unfold stateOf. cbn. repeat apply conj; try reflexivity.
    + exact Hs.
    + intros rnd. unfold handle. cbn.
      rewrite (timerTick_remainingMs _ _ _ _ s); [exact Heq | exact Hs | exact Hs0].
  - intros Hle. rewrite Hw'. cbv zeta.
    destruct (Z.leb_spec atPause 0) as [_|Hgt]; [|lia].
    unfold stateOf, snapshot, finishSession, commitSession, playIfAudible.
    cbn. repeat break_if; cbn; repeat apply conj; reflexivity.
Qed.

(** The spec's scenario: target 300000, paused at elapsed 10000, resumed
    5000 later; the next tick shows 290000, not 285000. *)
Lemma resume_preserves_remaining_witness :
  stateOf (handle ResumeSession 19000 pausedDefault) = running
  /\ accumulatedPausedMsRef (handle ResumeSession 19000 pausedDefault) = 5000
  /\ pausedAtRef (handle ResumeSession 19000 pausedDefault) = None
  /\ TimekeeperStateData.remainingMs
       (stateData (handle (IntervalTick "")
                          19000 (handle ResumeSession 19000 pausedDefault)))
     = 290000.
Proof.
  destruct (resume_preserves_remaining 19000 pausedDefault 4000 14000)
    as (_ & H & _); try reflexivity; try lia.
  destruct H as (H1 & H2 & H3 & _ & _ & H6).
  - vm_compute. reflexivity.
  - repeat apply conj.
    + exact H1.
    + rewrite H2. reflexivity.
    + exact H3.
    + rewrite H6. reflexivity.
Defined.

(** C9, at the failing input: the ten-second session is reloaded at 5000,
    so its countdown runs on the persisted 10000 while the configuration
    holds the default 300000. The tick at 6000 shows 8000 and the user
    pauses; the resume at 9000 adds exactly the 3000 of the pause and
    clears [pausedAt], but it installs the countdown over the configured
    300000: the next tick shows 298000 where the remaining time at the
    instant of the pause was 8000. *)
Theorem resume_after_reload_changes_remaining :
  intervalRef reloadedTick = Some (TimerInterval firstEnv 10000)
  /\ TimekeeperStateData.remainingMs (stateData reloadedTick) = 8000
  /\ stateOf reloadedPaused = paused
  /\ startTimestampRef reloadedPaused = Some 4000
  /\ pausedAtRef reloadedPaused = Some 6000
  /\ accumulatedPausedMsRef reloadedPaused = 0
  /\ TimekeeperStateData.remainingMs (stateData reloadedPaused) = 8000
  /\ remainingAt 10000 4000 0 6000 = 8000
  /\ stateOf reloadedResumed = running
  /\ accumulatedPausedMsRef reloadedResumed = 3000
  /\ pausedAtRef reloadedResumed = None
  /\ intervalRef reloadedResumed
     = Some (TimerInterval (currentEnv reloadedPaused) 300000)
  /\ TimekeeperStateData.remainingMs
       (stateData (step reloadedResumed (9000, IntervalTick ""))) = 298000.
Proof.
  repeat apply conj; vm_compute; reflexivity.
Qed.

(** Abort while Paused: the record counts the open pause interval. *)
Lemma abort_while_paused_effectiveDuration (now : Z) (w : World)
    (s p : Z) (sid : string) :
  stateOf w = paused ->
  startTimestampRef w = Some s -> s <> 0 ->
  pausedAtRef w = Some p ->
  sessionIdRef w = Some sid -> sid <> "" ->
  exists r,
    storedSessions (handle AbortSession now w)
    = firstn MAX_SESSIONS (r :: storedSessions w)
    /\ Session.effectiveDurationMs r
       = (p - s - accumulatedPausedMsRef w) + (now - p).
Proof.
  intros Hst Hs Hs0 Hp Hid Hid0.
  apply Z.eqb_neq in Hs0. apply String.eqb_neq in Hid0.
  unfold stateOf in Hst.
  unfold handle, abortSession, commitSession, truthy, truthyStr,
    storedSessions, getSessions, playIfAudible.
  cbn. rewrite Hst, Hs, Hid, Hs0, Hid0. cbn.
  destruct (audible (currentEnv w)); cbn; eexists;
    (split; [reflexivity | cbn; lia]).
Qed.

(** C4, at the failing input: the default five-minute session runs from
    4000, is paused at 14000 and aborted at 19000. The Aborted record says
    [effectiveDurationMs = 15000]: the 10000 the session was active plus
    the 5000 of the pause that preceded the abort call, which the claim
    says is excluded. *)
Theorem abort_while_paused_counts_pause :
  stateOf pausedDefault = paused
  /\ startTimestampRef pausedDefault = Some 4000
  /\ pausedAtRef pausedDefault = Some 14000
  /\ accumulatedPausedMsRef pausedDefault = 0
  /\ stateOf abortedWhilePaused = aborted
  /\ map Session.status (storedSessions abortedWhilePaused) = [status_aborted]
  /\ map Session.effectiveDurationMs (storedSessions abortedWhilePaused)
     = [15000]
  /\ (14000 - 4000) + (19000 - 14000) = 15000.
Proof.
  repeat apply conj; reflexivity.
Qed.

(** ** The countdown tick at and past the deadline *)

(** C1 (amended): when the periodic tick of a Running session first sees
    the recomputed remaining time at or below zero, it sets the
    finish-alarm flag, fires the finish alert (when the sound is enabled and
    not muted in the render the interval captured) and publishes the
    negative remaining time. The controller stays Running: no Session
    Record is committed, the snapshot and the history are untouched, the
    interval keeps running, and later overdue ticks fire no further
    alert. *)
Theorem overdue_tick_stays_running (now : Z) (rnd : string) (w : World)
    (e : Env) (d s : Z) :
  stateOf w = running ->
  intervalRef w = Some (TimerInterval e d) ->
  startTimestampRef w = Some s -> s <> 0 ->
  finishAlarmTriggeredRef w = false ->
  remainingAt d s (accumulatedPausedMsRef w) now <= 0 ->
  let w' := handle (IntervalTick rnd) now w in
  stateOf w' = running
  /\ TimekeeperStateData.remainingMs (stateData w')
     = remainingAt d s (accumulatedPausedMsRef w) now
  /\ finishAlarmTriggeredRef w' = true
  /\ beeps w' = ((if audible e then [beepFinishAlarm] else []) ++ beeps w)%list
  /\ localStorage w' = localStorage w
  /\ sessions w' = sessions w
  /\ intervalRef w' = intervalRef w
  /\ startTimestampRef w' = startTimestampRef w
  /\ sessionIdRef w' = sessionIdRef w
  /\ forall now2 rnd2,
       remainingAt d s (accumulatedPausedMsRef w) now2 <= 0 ->
       beeps (handle (IntervalTick rnd2) now2 w') = beeps w'.
Proof.
  intros Hst Hi Hs Hs0 Hf Hrem.
  apply Z.eqb_neq in Hs0. unfold stateOf in Hst.
  assert (Hgt : forall n, remainingAt d s (accumulatedPausedMsRef w) n <= 0 ->
                (remainingAt d s (accumulatedPausedMsRef w) n >? 0) = false).
  { intros n Hn. rewrite Z.gtb_ltb. apply Z.ltb_ge. exact Hn. }
  assert (Hw' : handle (IntervalTick rnd) now w =
    setStateData
      (with_remainingMs (remainingAt d s (accumulatedPausedMsRef w) now))
      (playIfAudible e beepFinishAlarm (set_finishAlarmTriggeredRef true w))).
  { unfold handle, timerTick, truthy. rewrite Hi, Hs, Hs0. cbn.
    change (d - (now - s - accumulatedPausedMsRef w))
      with (remainingAt d s (accumulatedPausedMsRef w) now).
    rewrite (Hgt now Hrem), andb_false_r. cbn. rewrite Hf.
    apply Z.leb_le in Hrem. rewrite Hrem. reflexivity. }
  cbv zeta. rewrite Hw'. unfold stateOf, playIfAudible.
  destruct (audible e); cbn; rewrite ?Hst;
    (repeat apply conj; try reflexivity);
    intros now2 rnd2 H2; unfold handle, timerTick, truthy; cbn;
    rewrite Hi, Hs, Hs0; cbn;
    change (d - (now2 - s - accumulatedPausedMsRef w))
      with (remainingAt d s (accumulatedPausedMsRef w) now2);
    rewrite (Hgt now2 H2), andb_false_r; reflexivity.
Qed.

(** The spec's scenario: target 10000, the clock 15000 past [startedAt], no
    pause. *)
Lemma overdue_tick_stays_running_witness :
  let w' := handle (IntervalTick "") 19000 runningTenSeconds in
  stateOf w' = running
  /\ TimekeeperStateData.remainingMs (stateData w') = -5000
  /\ beeps w' = (beepFinishAlarm :: beeps runningTenSeconds)
  /\ localStorage w' = localStorage runningTenSeconds.
Proof.
  destruct (overdue_tick_stays_running 19000 "" runningTenSeconds
              (mkEnv tenSeconds initialStateData true) 10000 4000)
    as (H1 & H2 & _ & H4 & H5 & _); try reflexivity; try lia.
  - vm_compute. discriminate.
  - cbv zeta. repeat apply conj.
    + exact H1.
    + rewrite H2. reflexivity.
    + rewrite H4. reflexivity.
    + exact H5.
Defined.

(** C1, as stated, fails: the tick that first sees the remaining time at
    -5000 leaves the controller Running, commits no record and keeps the
    snapshot; it only sounds the finish alarm and shows the overdue time. *)
Lemma overdue_tick_does_not_finish :
  stateOf runningTenSeconds = running
  /\ remainingAt 10000 4000 0 19000 = -5000
  /\ stateOf overdueTick <> finished
  /\ storedSessions overdueTick = []
  /\ snapshot overdueTick <> None
  /\ count_occ Beep_eq_dec (beeps overdueTick) beepFinishAlarm = 1%nat.
Proof.
  repeat apply conj; try reflexivity; vm_compute; discriminate.
Qed.

(** ** Restart *)

(** The restore never writes to the history: the session id is not part of
    the snapshot, so the commit block of a [finishSession] called from the
    mount effect is skipped. *)
Lemma mount_commits_nothing ls now rnd :
  storedSessions (mount ls now rnd) = getSessions ls.
Proof.
  unfold storedSessions, mount.
  destruct (render_frame (mountEffect firstEnv now rnd (initialWorld ls)))
    as (_ & _ & -> & _).
  unfold mountEffect. unfold_callbacks. cbn.
  repeat break_if; reflexivity.
Qed.

(** The snapshot has no field for the finish-alarm flag: after a restart it
    is false again, whatever happened before. *)
Lemma mount_forgets_finish_alarm ls now rnd :
  finishAlarmTriggeredRef (mount ls now rnd) = false.
Proof.
  unfold mount, render. unfold mountEffect. unfold_callbacks. cbn.
  repeat break_if; reflexivity.
Qed.

(** C2, at the failing input: the page is reloaded at 20000 over the
    snapshot of a Running ten-second session started at 4000, so the
    remaining time is -6000. The restore goes to Finished and clears the
    snapshot, but the history is still empty: the completed session is
    lost. *)
Theorem restore_overdue_loses_session :
  snapshot runningTenSeconds
  = Some (PersistedState.mk running "Repair" 10000 (Some 4000) None 0
                            (Some 1000) false false)
  /\ remainingAt 10000 4000 0 20000 = -6000
  /\ stateOf (reloadedAt 20000) = finished
  /\ snapshot (reloadedAt 20000) = None
  /\ storedSessions (reloadedAt 20000) = []
  /\ sessions (reloadedAt 20000) = [].
Proof.
  repeat apply conj; reflexivity.
Qed.

(** C6, at the failing input: the page is reloaded at 4000 over the snapshot
    the controller wrote at 4000. The restore persists again at once
    ([startTimer] calls [persistState]), and the snapshot it writes has the
    default target of 300000 and the default activity where the one it
    read had 10000 and "Repair"; a snapshot taken by the callbacks of the
    next render still has 300000. *)
Theorem restore_resnapshot_differs :
  exists before after again,
    snapshot runningTenSeconds = Some before
    /\ snapshot (reloadedAt 4000) = Some after
    /\ snapshot (persistState (currentEnv (reloadedAt 4000))
                   (stateOf (reloadedAt 4000)) (reloadedAt 4000))
       = Some again
    /\ PersistedState.targetDurationMs before = 10000
    /\ PersistedState.targetDurationMs after = 300000
    /\ PersistedState.targetDurationMs again = 300000
    /\ PersistedState.activityType before = "Repair"
    /\ PersistedState.activityType after = "Loading"
    /\ PersistedState.startTimestamp after
       = PersistedState.startTimestamp before
    /\ before <> after
    /\ before <> again.
Proof.
  exists (PersistedState.mk running "Repair" 10000 (Some 4000) None 0
                           (Some 1000) false false),
         (PersistedState.mk running "Loading" 300000 (Some 4000) None 0
                            (Some 1000) false false),
         (PersistedState.mk running "Repair" 300000 (Some 4000) None 0
                            (Some 1000) false false).
  repeat apply conj; try reflexivity; discriminate.
Qed.

(** ** Alerts *)

(** Once the warning flag is set, a tick fires no warning. *)
Lemma timerTick_warning_once e d now w :
  warningTriggeredRef w = true ->
  count_occ Beep_eq_dec (beeps (timerTick e d now w)) beepWarningTriple
  = count_occ Beep_eq_dec (beeps w) beepWarningTriple
  /\ warningTriggeredRef (timerTick e d now w) = true.
Proof.
  intros H. unfold timerTick, playIfAudible, setStateData, play.
  rewrite H. cbn.
  repeat break_if; cbn; auto.
Qed.

(** A tick that captured a warning threshold of zero fires no warning. *)
Lemma timerTick_threshold_zero e d now w :
  warningThresholdMs e = 0 ->
  count_occ Beep_eq_dec (beeps (timerTick e d now w)) beepWarningTriple
  = count_occ Beep_eq_dec (beeps w) beepWarningTriple.
Proof.
  intros H. unfold timerTick. rewrite H.
  destruct (startTimestampRef w) as [s|]; [|reflexivity].
  destruct (negb (truthy (Some s))); [reflexivity|].
  set (r := d - (now - s - accumulatedPausedMsRef w)).
  assert (Hr : (r >? 0) && (r <=? 0) = false).
  { rewrite Z.gtb_ltb.
    destruct (Z.ltb_spec 0 r), (Z.leb_spec r 0); try reflexivity; lia. }
  rewrite <- andb_assoc, Hr, andb_false_r.
  unfold playIfAudible, setStateData, play.
  repeat break_if; cbn; auto.
Qed.

(** The threshold a tick compares with is the one its closure captured.
    Configured after the sound was enabled, a threshold of 0 does not reach
    the interval: it still holds the two minutes of the render that built
    [startArmingTimer], and the first tick fires the warning. *)
Lemma stale_threshold_still_warns :
  warningThresholdMs (currentEnv configuredAfterSound) = 0
  /\ intervalRef configuredAfterSound
     = Some (TimerInterval (mkEnv initialConfig initialStateData true) 10000)
  /\ count_occ Beep_eq_dec (beeps configuredAfterSound) beepWarningTriple
     = 1%nat.
Proof.
  repeat apply conj; reflexivity.
Qed.

(** C3, at the failing input: one ten-second session with sound enabled.
    The tick at 19000 sees the session overdue and sounds the finish alarm;
    the user pauses at 20000 and resumes at 21000, the resume finds the
    remaining time at or below zero and calls [finishSession], which sounds
    the finish alarm again without looking at the flag the tick set. One
    session, one record, two finish alerts. *)
Theorem finish_alert_fires_twice :
  count_occ Beep_eq_dec (beeps runningTenSeconds) beepFinishAlarm = 0%nat
  /\ count_occ Beep_eq_dec (beeps overdueTick) beepFinishAlarm = 1%nat
  /\ finishAlarmTriggeredRef overdueTick = true
  /\ count_occ Beep_eq_dec (beeps overduePauseResume) beepFinishAlarm
     = 2%nat
  /\ stateOf overduePauseResume = finished
  /\ map Session.id (storedSessions overduePauseResume) = ["4000-k3x9"]
  /\ sessionIdRef runningTenSeconds = Some "4000-k3x9".
Proof.
  repeat apply conj; reflexivity.
Qed.

(** * Further properties *)

(** ** [utils/storage.ts] *)

Lemma firstn_cons_firstn {A} (n : nat) (x : A) (l : list A) :
  firstn n (x :: firstn n l) = firstn n (x :: l).
Proof.
  destruct n as [|n]; [reflexivity|].
  rewrite !firstn_cons, firstn_firstn.
  replace (Nat.min n (S n)) with n by lia. reflexivity.
Qed.

Lemma saveSession_fold (ss : list Session.t) :
  forall (ls : LocalStorage.t) (recent : list Session.t),
    getSessions ls = firstn MAX_SESSIONS recent ->
    getSessions (fold_left (fun acc s => saveSession s acc) ss ls)
    = firstn MAX_SESSIONS (rev ss ++ recent)%list
    /\ getState (fold_left (fun acc s => saveSession s acc) ss ls)
       = getState ls.
Proof.
  induction ss as [|a ss IH]; intros ls recent H; cbn [fold_left rev].
  - split; [exact H | reflexivity].
  - destruct (IH (saveSession a ls) (a :: recent)) as [IH1 IH2].
    + unfold saveSession, getSessions in *. cbn. rewrite H.
      apply firstn_cons_firstn.
    + rewrite IH1, IH2, <- app_assoc. split; reflexivity.
Qed.

(** X1: the history holds the [MAX_SESSIONS] most recent sessions, newest
    first. Saving [s] and then the sessions [ss], one after the other,
    leaves the last one saved at the head, keeps the order of the others
    and drops what falls beyond the hundredth place; the snapshot slot is
    not touched. *)
Theorem saveSession_keeps_most_recent (s : Session.t) (ss : list Session.t)
    (ls : LocalStorage.t) :
  let ls' := fold_left (fun acc x => saveSession x acc) (s :: ss) ls in
  getSessions ls'
  = firstn MAX_SESSIONS (rev (s :: ss) ++ getSessions ls)%list
  /\ (List.length (getSessions ls') <= MAX_SESSIONS)%nat
  /\ getState ls' = getState ls.
Proof.
  cbv zeta. cbn [fold_left].
  destruct (saveSession_fold ss (saveSession s ls) (s :: getSessions ls))
    as [H1 H2]; [reflexivity|].
  rewrite H1, H2.
  repeat apply conj.
  - cbn [rev]. rewrite <- app_assoc. reflexivity.
  - apply firstn_le_length.
  - reflexivity.
Qed.

(** Appending to the right is injective. *)
Lemma append_inj_l (t a b : string) :
  String.append a t = String.append b t -> a = b.
Proof.
  intros H.
  assert (L : forall x y, list_ascii_of_string (String.append x y)
              = (list_ascii_of_string x ++ list_ascii_of_string y)%list).
  { induction x as [|c x IHx]; intros y; cbn; [reflexivity|].
    rewrite IHx. reflexivity. }
  apply (f_equal list_ascii_of_string) in H.
  rewrite !L in H. apply app_inv_tail in H.
  rewrite <- (string_of_list_ascii_of_string a),
          <- (string_of_list_ascii_of_string b), H.
  reflexivity.
Qed.

Lemma to_int_string_inj (a b : Z) :
  NilZero.string_of_int (Z.to_int a) = NilZero.string_of_int (Z.to_int b) ->
  a = b.
Proof.
  intros H.
  assert (N : forall z, Z.to_int z <> Decimal.Pos Decimal.Nil
                        /\ Z.to_int z <> Decimal.Neg Decimal.Nil).
  { intros [|p|p]; cbn; split; try discriminate;
      intros [= E]; exact (DecimalPos.Unsigned.to_uint_nonnil p E). }
  apply DecimalZ.to_int_inj.
  apply (f_equal NilZero.int_of_string) in H.
  rewrite !NilZero.isi in H by apply N.
  congruence.
Qed.

(** X2: [generateId] never returns the empty string, so a generated id
    always passes the truthiness test of the commit block; and two ids
    generated at different clock readings differ even when the random
    suffix is the same. *)
Theorem generateId_truthy_and_time_stamped (now now' : Z) (rnd : string) :
  truthyStr (Some (generateId now rnd)) = true
  /\ (generateId now rnd = generateId now' rnd -> now = now').
Proof.
  split.
  - apply generateId_nonempty.
  - unfold generateId. intros H.
    apply append_inj_l in H. apply to_int_string_inj, H.
Qed.

(** ** [components/Timekeeper.tsx] *)

Lemma string_length_append (a b : string) :
  String.length (String.append a b) = (String.length a + String.length b)%nat.
Proof.
  induction a as [|c a IH]; cbn; [reflexivity | rewrite IH; reflexivity].
Qed.

Lemma below_by_enumeration (P : nat -> bool) (bound : nat) :
  forallb P (seq 0 bound) = true ->
  forall n : Z, 0 <= n < Z.of_nat bound -> P (Z.to_nat n) = true.
Proof.
  intros H n Hn. rewrite forallb_forall in H. apply H.
  apply in_seq. lia.
Qed.

Lemma padStart0_two_digits (n : Z) :
  0 <= n < 100 -> String.length (padStart0 2 (numToString n)) = 2%nat.
Proof.
  intros Hn.
  pose proof (below_by_enumeration
    (fun k => Nat.eqb
       (String.length (padStart0 2 (numToString (Z.of_nat k)))) 2) 100) as H.
  cbv beta in H. rewrite <- (Z2Nat.id n) by lia.
  apply Nat.eqb_eq, H; [vm_compute; reflexivity | exact Hn].
Qed.

Lemma padStart0_three_digits (n : Z) :
  0 <= n < 1000 -> String.length (padStart0 3 (numToString n)) = 3%nat.
Proof.
  intros Hn.
  pose proof (below_by_enumeration
    (fun k => Nat.eqb
       (String.length (padStart0 3 (numToString (Z.of_nat k)))) 3) 1000) as H.
  cbv beta in H. rewrite <- (Z2Nat.id n) by lia.
  apply Nat.eqb_eq, H; [vm_compute; reflexivity | exact Hn].
Qed.

(** X3: for a non-negative number of milliseconds the fields [formatTime]
    prints are a clock reading: minutes and seconds below 60, milliseconds
    below 1000, and together with the hours they add up to the input. The
    seconds always take two characters and the milliseconds three, so the
    text is the leading number followed by 7 characters (10 when hours are
    shown). *)
Theorem formatTime_nonnegative (ms : Z) :
  0 <= ms ->
  let f := clockFields ms in
  0 <= ClockFields.hours f
  /\ 0 <= ClockFields.minutes f < 60
  /\ 0 <= ClockFields.seconds f < 60
  /\ 0 <= ClockFields.milliseconds f < 1000
  /\ ((ClockFields.hours f * 60 + ClockFields.minutes f) * 60
      + ClockFields.seconds f) * 1000 + ClockFields.milliseconds f = ms
  /\ String.length (formatTime ms)
     = if ClockFields.hours f >? 0
       then (String.length (numToString (ClockFields.hours f)) + 10)%nat
       else (String.length (numToString (ClockFields.minutes f)) + 7)%nat.
Proof.
  intros Hms f.
  assert (B : 0 <= ClockFields.hours f
              /\ 0 <= ClockFields.minutes f < 60
              /\ 0 <= ClockFields.seconds f < 60
              /\ 0 <= ClockFields.milliseconds f < 1000
              /\ ((ClockFields.hours f * 60 + ClockFields.minutes f) * 60
                  + ClockFields.seconds f) * 1000
                 + ClockFields.milliseconds f = ms).
  { unfold f, clockFields. cbn [ClockFields.hours ClockFields.minutes
      ClockFields.seconds ClockFields.milliseconds].
    Z.to_euclidean_division_equations. lia. }
  destruct B as (Bh & Bm & Bs & Bx & Bsum).
  repeat apply conj; try assumption; try lia.
  unfold formatTime. fold f.
  destruct (ClockFields.hours f >? 0);
    rewrite !string_length_append,
      ?(padStart0_two_digits (ClockFields.seconds f)),
      ?(padStart0_two_digits (ClockFields.minutes f)),
      ?(padStart0_three_digits (ClockFields.milliseconds f)) by lia;
    cbn [String.length]; lia.
Qed.

Lemma formatTime_nonnegative_witness :
  let f := clockFields 3725042 in
  0 <= ClockFields.hours f
  /\ 0 <= ClockFields.minutes f < 60
  /\ 0 <= ClockFields.seconds f < 60
  /\ 0 <= ClockFields.milliseconds f < 1000
  /\ ((ClockFields.hours f * 60 + ClockFields.minutes f) * 60
      + ClockFields.seconds f) * 1000 + ClockFields.milliseconds f = 3725042
  /\ String.length (formatTime 3725042)
     = if ClockFields.hours f >? 0
       then (String.length (numToString (ClockFields.hours f)) + 10)%nat
       else (String.length (numToString (ClockFields.minutes f)) + 7)%nat.
Proof.
  apply (formatTime_nonnegative 3725042). lia.
Defined.

(** X4: [formatTime] mixes [Math.floor] with the sign-keeping [%]. For a
    negative input of less than a minute, which is what the running
    countdown displays once it is overdue, the minute field reads -1, the
    second and millisecond fields are zero or negative, and the text
    starts with "-1:". *)
Theorem formatTime_overdue_minute_field (ms : Z) :
  -60000 < ms < 0 ->
  let f := clockFields ms in
  ClockFields.hours f = -1
  /\ ClockFields.minutes f = -1
  /\ -60 < ClockFields.seconds f <= 0
  /\ -1000 < ClockFields.milliseconds f <= 0
  /\ formatTime ms
     = String.append "-1:"
         (String.append (padStart0 2 (numToString (ClockFields.seconds f)))
            (String.append "."
               (padStart0 3 (numToString (ClockFields.milliseconds f))))).
Proof.
  intros Hms f.
  assert (B : ClockFields.hours f = -1 /\ ClockFields.minutes f = -1
              /\ -60 < ClockFields.seconds f <= 0
              /\ -1000 < ClockFields.milliseconds f <= 0).
  { unfold f, clockFields. cbn [ClockFields.hours ClockFields.minutes
      ClockFields.seconds ClockFields.milliseconds].
    Z.to_euclidean_division_equations. lia. }
  destruct B as (Bh & Bm & Bs & Bx).
  repeat apply conj; try assumption; try lia.
  unfold formatTime. fold f. rewrite Bh, Bm. reflexivity.
Qed.

Lemma formatTime_overdue_minute_field_witness :
  ClockFields.minutes (clockFields (-5000)) = -1
  /\ formatTime (-5000) = "-1:-5.000".
Proof.
  destruct (formatTime_overdue_minute_field (-5000)) as (_ & Hm & _ & _ & Hs);
    [lia|].
  split; [exact Hm | rewrite Hs; reflexivity].
Defined.

(** X5: [formatDuration] prints whole minutes and seconds and drops the
    rest: for a non-negative input the seconds are below 60 and the
    printed time is the input rounded down to the second. *)
Theorem formatDuration_whole_seconds (ms : Z) :
  0 <= ms ->
  exists minutes seconds,
    formatDuration ms
    = String.append (numToString minutes)
        (String.append "m " (String.append (numToString seconds) "s"))
    /\ 0 <= minutes
    /\ 0 <= seconds < 60
    /\ (minutes * 60 + seconds) * 1000 <= ms
       < (minutes * 60 + seconds + 1) * 1000.
Proof.
  intros Hms.
  exists (ms / 1000 / 60), (Z.rem (ms / 1000) 60).
  split; [reflexivity|].
  Z.to_euclidean_division_equations. lia.
Qed.

Lemma formatDuration_whole_seconds_witness :
  exists minutes seconds,
    formatDuration 125999
    = String.append (numToString minutes)
        (String.append "m " (String.append (numToString seconds) "s"))
    /\ 0 <= minutes
    /\ 0 <= seconds < 60
    /\ (minutes * 60 + seconds) * 1000 <= 125999
       < (minutes * 60 + seconds + 1) * 1000.
Proof.
  apply (formatDuration_whole_seconds 125999). lia.
Defined.

(** X6: the warning-threshold input can not store 0. An entry of 0, like an
    entry that does not parse, becomes 2; any other integer is stored as it
    is, without clamping; the rest of the configuration is kept. *)
Theorem warning_threshold_input_never_zero (parsed : option Z)
    (c : TimekeeperConfig.t) :
  let c' := onChangeWarningThreshold parsed c in
  TimekeeperConfig.warningThresholdMinutes c' <> 0
  /\ (parsed = None \/ parsed = Some 0 ->
      TimekeeperConfig.warningThresholdMinutes c' = 2)
  /\ (forall v, parsed = Some v -> v <> 0 ->
      TimekeeperConfig.warningThresholdMinutes c' = v)
  /\ TimekeeperConfig.activityType c' = TimekeeperConfig.activityType c
  /\ TimekeeperConfig.targetMinutes c' = TimekeeperConfig.targetMinutes c
  /\ TimekeeperConfig.targetSeconds c' = TimekeeperConfig.targetSeconds c.
Proof.
  cbv zeta. unfold onChangeWarningThreshold, orNum.
  cbn [TimekeeperConfig.warningThresholdMinutes TimekeeperConfig.activityType
       TimekeeperConfig.targetMinutes TimekeeperConfig.targetSeconds].
  repeat apply conj; try reflexivity.
  - destruct parsed as [v|]; [|discriminate].
    destruct (Z.eqb_spec v 0); [discriminate | assumption].
  - intros [-> | ->]; reflexivity.
  - intros v -> Hv. apply Z.eqb_neq in Hv. rewrite Hv. reflexivity.
Qed.

(** ** Renders *)

Lemma render_cases (w : World) :
  render w = w \/ render w = set_armingEnv (currentEnv w) w.
Proof. unfold render. break_if; auto. Qed.

Lemma render_idempotent (w : World) : render (render w) = render w.
Proof.
  unfold render at 2 3.
  destruct (Bool.eqb _ _ && Bool.eqb _ _) eqn:E.
  - unfold render. rewrite E. reflexivity.
  - unfold render. cbn. rewrite !Bool.eqb_reflx. reflexivity.
Qed.

Lemma reachable_rendered (w : World) : reachable w -> render w = w.
Proof.
  intros [ls now rnd | w0 ev _]; apply render_idempotent.
Qed.

(** ** No orphaned timers *)

Ltac crush_cases :=
  repeat (break_inner; cbn in *; try congruence);
  try (split; first [exact I | reflexivity | assumption | congruence]).

Lemma handle_timersMatchState ev now w :
  timersMatchState w -> timersMatchState (handle ev now w).
Proof.
  unfold timersMatchState, stateOf. intros [H1 H2].
  destruct (TimekeeperStateData.state (stateData w)) eqn:Hst;
  destruct (intervalRef w) as [[ie idur|ie idur]|] eqn:Hi; try discriminate;
    destruct (persistIntervalRef w) as [pe|] eqn:Hp; try discriminate;
    destruct ev; unfold_callbacks; cbn; rewrite ?Hi, ?Hp, ?Hst; cbn;
    crush_cases.
Qed.

Lemma mount_timersMatchState ls now rnd :
  timersMatchState (mount ls now rnd).
Proof.
  unfold mount.
  destruct (render_cases (mountEffect firstEnv now rnd (initialWorld ls)))
    as [-> | ->]; unfold timersMatchState, stateOf, mountEffect;
    unfold_callbacks; cbn; crush_cases.
Qed.

Lemma reachable_timersMatchState w : reachable w -> timersMatchState w.
Proof.
  induction 1 as [ls now rnd | w ev _ IH].
  - apply mount_timersMatchState.
  - unfold step.
    pose proof (handle_timersMatchState (snd ev) (fst ev) w IH) as H.
    destruct (render_cases (handle (snd ev) (fst ev) w)) as [-> | ->];
      [exact H | exact H].
Qed.

(** X7: no orphaned timers. In every world a mounted hook can reach, the
    arming countdown is installed only while Arming and the countdown tick
    and the persist interval only while Running: Idle, Paused, Finished and
    Aborted have no interval at all. *)
Theorem no_orphan_timers (w : World) :
  reachable w ->
  (stateOf w <> arming -> stateOf w <> running ->
   intervalRef w = None /\ persistIntervalRef w = None)
  /\ (stateOf w = arming ->
      persistIntervalRef w = None
      /\ forall e d, intervalRef w <> Some (TimerInterval e d))
  /\ (stateOf w = running ->
      forall e d, intervalRef w <> Some (ArmingInterval e d)).
Proof.
  intros Hr. destruct (reachable_timersMatchState w Hr) as [H1 H2].
  repeat apply conj.
  - intros Ha Hn. split.
    + destruct (intervalRef w) as [[e d|e d]|]; [contradiction..|reflexivity].
    + destruct (persistIntervalRef w); [contradiction|reflexivity].
  - intros Ha. split.
    + destruct (persistIntervalRef w); [congruence|reflexivity].
    + intros e d E. rewrite E in H1. congruence.
  - intros Hn e d E. rewrite E in H1. congruence.
Qed.

Lemma no_orphan_timers_witness :
  intervalRef pausedDefault = None /\ persistIntervalRef pausedDefault = None.
Proof.
  assert (Hr : reachable pausedDefault).
  { unfold pausedDefault, runningDefault.
    apply reachable_step, reachable_run, reachable_mount. }
  destruct (no_orphan_timers pausedDefault Hr) as (H & _).
  apply H; vm_compute; discriminate.
Defined.

(** X8: the countdown is frozen outside Arming and Running. In a reachable
    world that is Idle, Paused, Finished or Aborted, interval callbacks
    firing, in any number and at any time, change nothing: not the
    displayed remaining time, not the snapshot, not the alerts. *)
Theorem timer_events_outside_counting (w : World) (evs : list (Z * Event)) :
  reachable w ->
  stateOf w <> arming -> stateOf w <> running ->
  Forall (fun ev => isTimerEvent (snd ev) = true) evs ->
  run w evs = w.
Proof.
  intros Hr Ha Hn Hevs.
  destruct (reachable_timersMatchState w Hr) as [H1 H2].
  assert (Hi : intervalRef w = None).
  { destruct (intervalRef w) as [[e d|e d]|]; [contradiction..|reflexivity]. }
  assert (Hp : persistIntervalRef w = None).
  { destruct (persistIntervalRef w); [contradiction|reflexivity]. }
  induction Hevs as [|[t ev] evs Hev _ IH]; [reflexivity|].
  cbn [run fold_left]. fold (run (step w (t, ev)) evs).
  assert (Hstep : step w (t, ev) = w).
  { unfold step. cbn [fst snd].
    destruct ev; try discriminate; unfold handle; rewrite ?Hi, ?Hp;
      apply reachable_rendered, Hr. }
  rewrite Hstep. exact IH.
Qed.

Lemma timer_events_outside_counting_witness :
  run pausedDefault
      [(15000, IntervalTick ""); (15250, PersistTick);
       (900000, IntervalTick "")]
  = pausedDefault.
Proof.
  apply timer_events_outside_counting.
  - unfold pausedDefault, runningDefault.
    apply reachable_step, reachable_run, reachable_mount.
  - vm_compute. discriminate.
  - vm_compute. discriminate.
  - repeat constructor.
Defined.

(** ** The history shown *)

Lemma handle_historyInSync ev now w :
  historyInSync w -> historyInSync (handle ev now w).
Proof.
  unfold historyInSync, getLastSessions, getSessions. intros H.
  destruct ev; unfold_callbacks;
    unfold getLastSessions, getSessions, saveState, clearState, saveSession,
      clearSessions;
    cbn; repeat (break_inner; cbn in *; try congruence);
    first [reflexivity | assumption].
Qed.

Lemma mount_historyInSync ls now rnd : historyInSync (mount ls now rnd).
Proof.
  unfold mount.
  destruct (render_cases (mountEffect firstEnv now rnd (initialWorld ls)))
    as [-> | ->]; unfold historyInSync, mountEffect;
    unfold_callbacks;
    unfold getLastSessions, getSessions, saveState, clearState, saveSession,
      clearSessions;
    cbn; repeat (break_inner; cbn in *; try congruence);
    reflexivity.
Qed.

(** X9: the history the hook shows is always the ten most recent sessions
    of the stored history, in the same order: every write to the store is
    followed by a reload. *)
Theorem shown_history_in_sync (w : World) :
  reachable w ->
  sessions w = firstn 10 (storedSessions w)
  /\ (List.length (sessions w) <= 10)%nat.
Proof.
  intros Hr.
  assert (H : historyInSync w).
  { induction Hr as [ls now rnd | w ev _ IH].
    - apply mount_historyInSync.
    - unfold step.
      pose proof (handle_historyInSync (snd ev) (fst ev) w IH) as H.
      destruct (render_cases (handle (snd ev) (fst ev) w)) as [-> | ->];
        exact H. }
  unfold historyInSync, getLastSessions in H. unfold storedSessions.
  split; [exact H | rewrite H; apply firstn_le_length].
Qed.

Lemma shown_history_in_sync_witness :
  sessions abortedWhilePaused = firstn 10 (storedSessions abortedWhilePaused)
  /\ (List.length (sessions abortedWhilePaused) <= 10)%nat.
Proof.
  apply shown_history_in_sync.
  unfold abortedWhilePaused, pausedDefault, runningDefault.
  apply reachable_step, reachable_step, reachable_run, reachable_mount.
Defined.

(** ** Sound *)

Ltac finish_conj :=
  repeat apply conj; first [reflexivity | assumption | exact I | congruence].

Lemma handle_neverEnabled ev now w :
  ev <> EnableAudio -> neverEnabled w -> neverEnabled (handle ev now w).
Proof.
  unfold neverEnabled. intros Hev (Ha & He & Hi & Hb).
  destruct (intervalRef w) as [[ie idur|ie idur]|] eqn:Hint;
    destruct ev; try contradiction;
    unfold_callbacks; unfold audible; cbn;
    rewrite ?Hint, ?Ha, ?He, ?Hi, ?andb_false_r; cbn;
    repeat (break_inner; cbn in *; try congruence);
    rewrite ?Ha, ?He, ?Hi, ?andb_false_r in *; try discriminate;
    finish_conj.
Qed.

Lemma render_neverEnabled w : neverEnabled w -> neverEnabled (render w).
Proof.
  unfold neverEnabled. intros (Ha & He & Hi & Hb).
  destruct (render_cases w) as [-> | ->]; cbn; finish_conj.
Qed.

Lemma mount_neverEnabled ls now rnd : neverEnabled (mount ls now rnd).
Proof.
  unfold mount. apply render_neverEnabled.
  unfold neverEnabled, mountEffect. unfold_callbacks. unfold audible. cbn.
  repeat (break_inner; cbn in *; try congruence); finish_conj.
Qed.

(** X10: no sound before the user enables it. Starting from any stored
    state and through any sequence of events that does not contain
    [enableAudio], no function of [utils/audio.ts] is ever called. *)
Theorem silent_until_enabled (ls : LocalStorage.t) (now : Z) (rnd : string)
    (evs : list (Z * Event)) :
  Forall (fun ev => snd ev <> EnableAudio) evs ->
  beeps (run (mount ls now rnd) evs) = [].
Proof.
  intros Hevs.
  assert (H : neverEnabled (run (mount ls now rnd) evs)).
  { generalize (mount_neverEnabled ls now rnd).
    generalize (mount ls now rnd) as w.
    induction Hevs as [|[t ev] evs Hev _ IH]; intros w Hw; [exact Hw|].
    cbn [run fold_left]. apply IH. unfold step. cbn [fst snd].
    apply render_neverEnabled, handle_neverEnabled; assumption. }
  apply H.
Qed.

Lemma silent_until_enabled_witness :
  beeps (run (mount emptyStorage 0 "")
             [(100, SetConfig tenSeconds); (1000, StartSession);
              (2000, IntervalTick ""); (4000, IntervalTick "k3x9");
              (19000, IntervalTick ""); (20000, AbortSession)])
  = [].
Proof.
  apply silent_until_enabled.
  repeat constructor; discriminate.
Defined.

(** ** The countdown tick over time *)

(** Two facts recorded about the same test contradict each other. *)
Ltac prune :=
  try match goal with
      | H1 : ?f = _, H2 : context [?f] |- _ =>
          rewrite H1 in H2; cbn in H2; discriminate
      end.

(** A timer event on a running countdown leaves the interval and the
    timestamps alone, and spends the alert budgets at most. *)
Lemma timer_event_on_countdown ev now w e d :
  isTimerEvent ev = true ->
  intervalRef w = Some (TimerInterval e d) ->
  let w' := step w (now, ev) in
  intervalRef w' = Some (TimerInterval e d)
  /\ startTimestampRef w' = startTimestampRef w
  /\ accumulatedPausedMsRef w' = accumulatedPausedMsRef w
  /\ stateOf w' = stateOf w
  /\ storedSessions w' = storedSessions w
  /\ (warningBudget w' <= warningBudget w)%nat
  /\ (finishBudget w' <= finishBudget w)%nat
  /\ (played beepWarningTriple w <= played beepWarningTriple w')%nat
  /\ (played beepFinishAlarm w <= played beepFinishAlarm w')%nat.
Proof.
  intros Hev Hi. cbv zeta. unfold step. cbn [fst snd].
  destruct (render_cases (handle ev now w)) as [-> | ->];
    unfold warningBudget, finishBudget, played, stateOf, storedSessions;
    destruct ev; try discriminate;
    unfold_callbacks; cbn; rewrite ?Hi; cbn;
    repeat (break_inner; cbn in *; try congruence);
    prune;
    repeat apply conj; first [reflexivity | assumption | lia].
Qed.

Lemma timer_events_on_countdown evs :
  forall w e d,
    Forall (fun ev => isTimerEvent (snd ev) = true) evs ->
    intervalRef w = Some (TimerInterval e d) ->
    let w' := run w evs in
    intervalRef w' = Some (TimerInterval e d)
    /\ startTimestampRef w' = startTimestampRef w
    /\ accumulatedPausedMsRef w' = accumulatedPausedMsRef w
    /\ stateOf w' = stateOf w
    /\ storedSessions w' = storedSessions w
    /\ (warningBudget w' <= warningBudget w)%nat
    /\ (finishBudget w' <= finishBudget w)%nat
    /\ (played beepWarningTriple w <= played beepWarningTriple w')%nat
    /\ (played beepFinishAlarm w <= played beepFinishAlarm w')%nat.
Proof.
  induction evs as [|[t ev] evs IH]; intros w e d Hevs Hi; cbv zeta.
  - cbn. repeat apply conj; first [reflexivity | assumption | lia].
  - inversion Hevs as [|? ? Hev Hrest]; subst. cbn [snd] in Hev.
    cbn [run fold_left]. fold (run (step w (t, ev)) evs).
    destruct (timer_event_on_countdown ev t w e d Hev Hi)
      as (S1 & S2 & S3 & S4 & S5 & S6 & S7 & S8 & S9).
    destruct (IH (step w (t, ev)) e d Hrest S1)
      as (R1 & R2 & R3 & R4 & R5 & R6 & R7 & R8 & R9).
    repeat apply conj; try congruence; lia.
Qed.

(** X11: the countdown does not drift. However many interval callbacks ran
    before, and whenever they ran, the remaining time a tick publishes
    depends on the clock reading of that tick alone:
    [duration - (now - startedAt - accumulatedPausedMs)]. *)
Theorem ticks_do_not_drift (w : World) (e : Env) (d s : Z)
    (evs : list (Z * Event)) (now : Z) (rnd : string) :
  intervalRef w = Some (TimerInterval e d) ->
  startTimestampRef w = Some s -> s <> 0 ->
  Forall (fun ev => isTimerEvent (snd ev) = true) evs ->
  TimekeeperStateData.remainingMs
    (stateData (step (run w evs) (now, IntervalTick rnd)))
  = remainingAt d s (accumulatedPausedMsRef w) now.
Proof.
  intros Hi Hs Hs0 Hevs.
  destruct (timer_events_on_countdown evs w e d Hevs Hi)
    as (R1 & R2 & R3 & _).
  unfold step. cbn [fst snd].
  destruct (render_frame (handle (IntervalTick rnd) now (run w evs)))
    as (-> & _).
  unfold handle. rewrite R1.
  rewrite (timerTick_remainingMs e d now (run w evs) s);
    [rewrite R3; reflexivity | congruence | exact Hs0].
Qed.

Lemma ticks_do_not_drift_witness :
  TimekeeperStateData.remainingMs
    (stateData
       (step (run runningDefault
                  [(4016, IntervalTick ""); (4250, PersistTick);
                   (9000, IntervalTick "")])
             (14000, IntervalTick "")))
  = 290000.
Proof.
  rewrite (ticks_do_not_drift runningDefault firstEnv 300000 4000);
    [reflexivity | reflexivity | reflexivity | lia | repeat constructor].
Defined.

(** X12: however often the interval fires, the ticks of one countdown play
    the warning at most once and the finish alarm at most once; with the
    flag already up (as after a restore of a snapshot that has
    [warningTriggered]) they play no warning at all. *)
Theorem ticks_alert_at_most_once (w : World) (e : Env) (d : Z)
    (evs : list (Z * Event)) :
  intervalRef w = Some (TimerInterval e d) ->
  Forall (fun ev => isTimerEvent (snd ev) = true) evs ->
  let w' := run w evs in
  (played beepWarningTriple w' <= played beepWarningTriple w + 1)%nat
  /\ (played beepFinishAlarm w' <= played beepFinishAlarm w + 1)%nat
  /\ (warningTriggeredRef w = true ->
      played beepWarningTriple w' = played beepWarningTriple w)
  /\ (finishAlarmTriggeredRef w = true ->
      played beepFinishAlarm w' = played beepFinishAlarm w).
Proof.
  intros Hi Hevs.
  destruct (timer_events_on_countdown evs w e d Hevs Hi)
    as (_ & _ & _ & _ & _ & R6 & R7 & R8 & R9).
  cbv zeta. unfold warningBudget, finishBudget in *.
  repeat apply conj.
  - destruct (warningTriggeredRef w), (warningTriggeredRef (run w evs)); lia.
  - destruct (finishAlarmTriggeredRef w),
      (finishAlarmTriggeredRef (run w evs)); lia.
  - intros H. rewrite H in R6.
    destruct (warningTriggeredRef (run w evs)); lia.
  - intros H. rewrite H in R7.
    destruct (finishAlarmTriggeredRef (run w evs)); lia.
Qed.

Lemma ticks_alert_at_most_once_witness :
  let w' := run runningTenSeconds
                [(19000, IntervalTick ""); (19016, IntervalTick "");
                 (25000, IntervalTick "")] in
  (played beepWarningTriple w'
   <= played beepWarningTriple runningTenSeconds + 1)%nat
  /\ (played beepFinishAlarm w'
      <= played beepFinishAlarm runningTenSeconds + 1)%nat.
Proof.
  destruct (ticks_alert_at_most_once runningTenSeconds
              (mkEnv tenSeconds initialStateData true) 10000
              [(19000, IntervalTick ""); (19016, IntervalTick "");
               (25000, IntervalTick "")]) as (H1 & H2 & _);
    [reflexivity | repeat constructor |].
  split; [exact H1 | exact H2].
Defined.

(** ** Arming *)

Lemma ceilDiv1000_nonpositive (r : Z) :
  r <= 0 -> (ceilDiv1000 r >? 0) = false.
Proof.
  intros H. unfold ceilDiv1000. rewrite Z.gtb_ltb. apply Z.ltb_ge.
  assert (0 <= (- r) / 1000) by (apply Z.div_pos; lia). lia.
Qed.

Lemma ceilDiv1000_window (r : Z) :
  0 < r <= 3000 -> 1 <= ceilDiv1000 r <= 3.
Proof.
  intros H. unfold ceilDiv1000.
  Z.to_euclidean_division_equations. lia.
Qed.

(** X13: from Idle to Running. [startSession] at [t0] followed by the
    arming interval firing once the three seconds are over moves an idle
    controller to Running with [startedAt] the time of that tick, no
    accumulated pause, a generated non-empty session id and nothing added to
    the history; the countdown installed runs over the target configured
    at the start, so the first tick shows that target less the time since
    [startedAt]. *)
Theorem start_then_arming_elapses (w : World) (t0 t1 t2 : Z)
    (rnd rnd' : string) :
  stateOf w = idle ->
  t0 <> 0 -> t1 <> 0 ->
  ARMING_DURATION <= t1 - t0 ->
  let target := targetDurationMs (currentEnv w) in
  let w' := run w [(t0, StartSession); (t1, IntervalTick rnd)] in
  stateOf w' = running
  /\ startTimestampRef w' = Some t1
  /\ accumulatedPausedMsRef w' = 0
  /\ pausedAtRef w' = None
  /\ sessionIdRef w' = Some (generateId t1 rnd)
  /\ truthyStr (sessionIdRef w') = true
  /\ warningTriggeredRef w' = false
  /\ finishAlarmTriggeredRef w' = false
  /\ storedSessions w' = storedSessions w
  /\ intervalRef w' = Some (TimerInterval (armingEnv w) target)
  /\ TimekeeperStateData.remainingMs
       (stateData (step w' (t2, IntervalTick rnd')))
     = target - (t2 - t1).
Proof.
  intros Hst H0 H1 Hel target w'.
  assert (Hw' : w' = render (handle (IntervalTick rnd) t1
                               (render (handle StartSession t0 w))))
    by reflexivity.
  assert (Hs : handle StartSession t0 w
               = persistState (currentEnv w) arming
                   (startArmingTimer (armingEnv w) target t0
                      (setStateData (with_state arming) w))).
  { unfold handle, startSession. unfold stateOf in Hst. cbn.
    rewrite Hst. reflexivity. }
  set (w1 := render (handle StartSession t0 w)) in *.
  assert (F1 : intervalRef w1 = Some (ArmingInterval (armingEnv w) target)
               /\ armingStartTimestampRef w1 = Some t0
               /\ warningTriggeredRef w1 = false
               /\ finishAlarmTriggeredRef w1 = false
               /\ storedSessions w1 = storedSessions w).
  { unfold w1. rewrite Hs.
    destruct (render_cases
                (persistState (currentEnv w) arming
                   (startArmingTimer (armingEnv w) target t0
                      (setStateData (with_state arming) w))))
      as [-> | ->]; cbn; repeat apply conj; reflexivity. }
  destruct F1 as (Fi & Fa & Fw & Ff & Fs).
  assert (Ht : handle (IntervalTick rnd) t1 w1
               = transitionToRunning (armingEnv w) target t1 rnd
                   (clearTimer w1)).
  { unfold handle. rewrite Fi. unfold armingTick.
    rewrite Fa. unfold orNum. apply Z.eqb_neq in H0. rewrite H0.
    rewrite (ceilDiv1000_nonpositive (ARMING_DURATION - (t1 - t0)))
      by (unfold ARMING_DURATION in *; lia).
    cbn [andb].
    replace (ARMING_DURATION - (t1 - t0) <=? 0) with true
      by (symmetry; apply Z.leb_le; unfold ARMING_DURATION in *; lia).
    reflexivity. }
  set (w2 := handle (IntervalTick rnd) t1 w1) in *.
  assert (F2 : stateOf w2 = running
               /\ startTimestampRef w2 = Some t1
               /\ accumulatedPausedMsRef w2 = 0
               /\ pausedAtRef w2 = None
               /\ sessionIdRef w2 = Some (generateId t1 rnd)
               /\ warningTriggeredRef w2 = false
               /\ finishAlarmTriggeredRef w2 = false
               /\ storedSessions w2 = storedSessions w
               /\ intervalRef w2
                  = Some (TimerInterval (armingEnv w) target)).
  { rewrite Ht. unfold transitionToRunning, playIfAudible, stateOf,
      storedSessions in *.
    destruct (audible (armingEnv w)); cbn;
      repeat apply conj; first [reflexivity | assumption]. }
  destruct F2 as (G1 & G2 & G3 & G4 & G5 & G6 & G7 & G8 & G9).
  assert (R : forall x, render x = x \/ render x = set_armingEnv (currentEnv x) x)
    by apply render_cases.
  rewrite Hw'. fold w2.
  assert (F3 : stateOf (render w2) = running
               /\ startTimestampRef (render w2) = Some t1
               /\ accumulatedPausedMsRef (render w2) = 0
               /\ pausedAtRef (render w2) = None
               /\ sessionIdRef (render w2) = Some (generateId t1 rnd)
               /\ warningTriggeredRef (render w2) = false
               /\ finishAlarmTriggeredRef (render w2) = false
               /\ storedSessions (render w2) = storedSessions w
               /\ intervalRef (render w2)
                  = Some (TimerInterval (armingEnv w) target)).
  { destruct (R w2) as [-> | ->]; cbn;
      repeat apply conj; assumption. }
  destruct F3 as (K1 & K2 & K3 & K4 & K5 & K6 & K7 & K8 & K9).
  repeat apply conj; try assumption.
  - rewrite K5.
    apply generateId_nonempty.
  - unfold step. cbn [fst snd].
    destruct (render_frame (handle (IntervalTick rnd') t2 (render w2)))
      as (-> & _).
    unfold handle. rewrite K9.
    rewrite (timerTick_remainingMs _ _ _ _ t1 K2 H1), K3.
    unfold remainingAt. lia.
Qed.

(** The spec's scenario: start at 1000, the tick at 4000, three seconds
    later. *)
Lemma start_then_arming_elapses_witness :
  let w' := run (mount emptyStorage 0 "")
                [(1000, StartSession); (4000, IntervalTick "k3x9")] in
  stateOf w' = running
  /\ startTimestampRef w' = Some 4000
  /\ accumulatedPausedMsRef w' = 0
  /\ sessionIdRef w' = Some "4000-k3x9"
  /\ TimekeeperStateData.remainingMs
       (stateData (step w' (5000, IntervalTick "")))
     = 299000.
Proof.
  destruct (start_then_arming_elapses (mount emptyStorage 0 "")
              1000 4000 5000 "k3x9" "")
    as (H1 & H2 & H3 & _ & H5 & _ & _ & _ & _ & _ & H11);
    [reflexivity | lia | lia | unfold ARMING_DURATION; lia |].
  cbv zeta. repeat apply conj.
  - exact H1.
  - exact H2.
  - exact H3.
  - rewrite H5. reflexivity.
  - rewrite H11. reflexivity.
Defined.

(** X14: the arming countdown. While the three seconds are not over, the
    arming tick leaves the state, the interval and the storage alone and
    shows the seconds left rounded up, a number between 1 and 3 for a
    clock that is not before the start. It beeps when that number differs
    from the last one beeped and the render the arming interval captured
    was audible (sound enabled and not muted when [startArmingTimer] was
    built; a later mute or sound toggle does not reach the interval). A
    second tick within the same second is silent. *)
Theorem arming_tick_counts_down (w : World) (e : Env) (d a now : Z)
    (rnd : string) :
  intervalRef w = Some (ArmingInterval e d) ->
  armingStartTimestampRef w = Some a -> a <> 0 ->
  0 <= now - a < ARMING_DURATION ->
  let c := ceilDiv1000 (ARMING_DURATION - (now - a)) in
  let w' := handle (IntervalTick rnd) now w in
  1 <= c <= 3
  /\ TimekeeperStateData.armingCountdown (stateData w') = c
  /\ stateOf w' = stateOf w
  /\ intervalRef w' = intervalRef w
  /\ localStorage w' = localStorage w
  /\ startTimestampRef w' = startTimestampRef w
  /\ sessionIdRef w' = sessionIdRef w
  /\ beeps w'
     = ((if audible e && negb (optZ_eqb (Some c) (lastCountdownRef w))
         then [beepOnce] else []) ++ beeps w)%list
  /\ forall now' rnd',
       0 <= now' - a < ARMING_DURATION ->
       ceilDiv1000 (ARMING_DURATION - (now' - a)) = c ->
       beeps (handle (IntervalTick rnd') now' w') = beeps w'.
Proof.
  intros Hi Ha Ha0 Hwin c w'.
  assert (Hc : 1 <= c <= 3).
  { apply ceilDiv1000_window. unfold ARMING_DURATION in *. lia. }
  assert (Hshape : forall n r x,
    intervalRef x = Some (ArmingInterval e d) ->
    armingStartTimestampRef x = Some a ->
    0 <= n - a < ARMING_DURATION ->
    ceilDiv1000 (ARMING_DURATION - (n - a)) = c ->
    handle (IntervalTick r) n x
    = setStateData (with_armingCountdown c)
        (if negb (optZ_eqb (Some c) (lastCountdownRef x)) && audible e
         then set_lastCountdownRef (Some c) (play beepOnce x) else x)).
  { intros n r x Hxi Hxa Hn Hcn.
    unfold handle. rewrite Hxi. unfold armingTick. rewrite Hxa.
    unfold orNum. apply Z.eqb_neq in Ha0. rewrite Ha0. rewrite Hcn.
    replace (c >? 0) with true by (symmetry; rewrite Z.gtb_ltb; apply Z.ltb_lt; lia).
    replace (ARMING_DURATION - (n - a) <=? 0) with false
      by (symmetry; apply Z.leb_gt; lia).
    replace (Z.max 0 c) with c by lia.
    reflexivity. }
  assert (Hw' : w' = setStateData (with_armingCountdown c)
        (if negb (optZ_eqb (Some c) (lastCountdownRef w)) && audible e
         then set_lastCountdownRef (Some c) (play beepOnce w) else w))
    by (apply Hshape; [assumption | assumption | assumption | reflexivity]).
  split; [exact Hc|].
  assert (Hframe : intervalRef w' = Some (ArmingInterval e d)
                   /\ armingStartTimestampRef w' = Some a
                   /\ lastCountdownRef w'
                      = (if negb (optZ_eqb (Some c) (lastCountdownRef w))
                            && audible e
                         then Some c else lastCountdownRef w)).
  { rewrite Hw'.
    destruct (negb (optZ_eqb (Some c) (lastCountdownRef w)) && audible e);
      cbn; repeat apply conj; first [reflexivity | assumption]. }
  destruct Hframe as (Fi & Fa & Fl).
  repeat apply conj.
  1-7: rewrite Hw'; unfold stateOf;
    destruct (optZ_eqb (Some c) (lastCountdownRef w));
    destruct (audible e); cbn; first [reflexivity | assumption].
  intros now' rnd' Hn' Hc'.
  rewrite (Hshape now' rnd' w' Fi Fa Hn' Hc'), Fl.
  clear Hw' Hshape. clearbody w'.
  destruct (negb (optZ_eqb (Some c) (lastCountdownRef w)) && audible e)
    eqn:Hcond.
  - cbn [optZ_eqb]. rewrite Z.eqb_refl. reflexivity.
  - rewrite Hcond. reflexivity.
Qed.

Lemma arming_tick_counts_down_witness :
  TimekeeperStateData.armingCountdown
    (stateData (handle (IntervalTick "") 1500 armingDefault)) = 3
  /\ stateOf (handle (IntervalTick "") 1500 armingDefault) = arming.
Proof.
  destruct (arming_tick_counts_down armingDefault firstEnv 300000 1000 1500 "")
    as (_ & H2 & H3 & _); [reflexivity | reflexivity | lia
                          | unfold ARMING_DURATION; lia |].
  split; [rewrite H2; reflexivity | rewrite H3; reflexivity].
Defined.

(** ** Restart *)

(** X15: a missing snapshot and a snapshot in state idle are ignored: the
    hook mounts in its initial state, with the default configuration, no
    timestamps and no interval, and only loads the history. *)
Theorem mount_without_session (ls : LocalStorage.t) (now : Z) (rnd : string) :
  getState ls = None
  \/ (exists sv, getState ls = Some sv /\ PersistedState.state sv = idle) ->
  mount ls now rnd = set_sessions (getLastSessions 10 ls) (initialWorld ls).
Proof.
  intros H. unfold mount, mountEffect.
  assert (E : getState (localStorage (initialWorld ls)) = getState ls)
    by reflexivity.
  destruct H as [H | (sv & H & Hidle)]; rewrite E, H; [|rewrite Hidle];
    reflexivity.
Qed.

Lemma mount_without_session_witness :
  mount emptyStorage 0 "" = set_sessions [] (initialWorld emptyStorage).
Proof.
  rewrite (mount_without_session emptyStorage 0 "");
    [reflexivity | left; reflexivity].
Defined.

(** X16: a pause survives a reload, the session id does not. Mounting the
    hook over the storage a pause left restores Paused with the same
    start timestamp, pause timestamp, accumulated pause, warning flag and
    mute flag, installs no interval, plays nothing and leaves the snapshot
    and the history as they were; the session id is not in the snapshot
    and is gone. *)
Theorem pause_survives_reload (w : World) (p t : Z) (rnd : string) :
  stateOf w = running ->
  let wp := handle PauseSession p w in
  let wm := mount (localStorage wp) t rnd in
  stateOf wp = paused
  /\ stateOf wm = paused
  /\ startTimestampRef wm = startTimestampRef w
  /\ pausedAtRef wm = Some p
  /\ accumulatedPausedMsRef wm = accumulatedPausedMsRef w
  /\ warningTriggeredRef wm = warningTriggeredRef w
  /\ TimekeeperStateData.mute (stateData wm)
     = TimekeeperStateData.mute (stateData w)
  /\ intervalRef wm = None
  /\ persistIntervalRef wm = None
  /\ sessionIdRef wm = None
  /\ beeps wm = []
  /\ snapshot wm = snapshot wp
  /\ storedSessions wm = storedSessions w.
Proof.
  intros Hst. unfold stateOf in Hst. cbv zeta.
  assert (Hp : handle PauseSession p w
               = persistState (currentEnv w) paused
                   (setStateData (with_state paused)
                      (set_pausedAtRef (Some p) (clearTimer w)))).
  { unfold handle, pauseSession. cbn. rewrite Hst. reflexivity. }
  rewrite Hp. unfold mount.
  match goal with
  | |- context [render ?x] => destruct (render_cases x) as [-> | ->]
  end;
    unfold mountEffect, stateOf, snapshot, storedSessions; cbn;
    destruct (TimekeeperStateData.mute (stateData w));
    repeat apply conj; reflexivity.
Qed.

Lemma pause_survives_reload_witness :
  let wm := mount (localStorage (handle PauseSession 14000 runningDefault))
                  900000 "" in
  stateOf wm = paused
  /\ startTimestampRef wm = Some 4000
  /\ pausedAtRef wm = Some 14000
  /\ sessionIdRef wm = None.
Proof.
  destruct (pause_survives_reload runningDefault 14000 900000 "")
    as (_ & H2 & H3 & H4 & _ & _ & _ & _ & _ & H10 & _); [reflexivity|].
  cbv zeta. repeat apply conj.
  - exact H2.
  - rewrite H3. reflexivity.
  - exact H4.
  - exact H10.
Defined.

(** X17: a running countdown continues after a reload. Mounting over a
    Running snapshot with time left restores the timestamps, the
    accumulated pause and the flags as persisted and installs the countdown
    over the persisted target: every later tick shows
    [target - (now - startedAt - accumulatedPausedMs)] with the persisted
    values. The restore plays nothing and has no session id. *)
Theorem restore_running_continues (ls : LocalStorage.t)
    (sv : PersistedState.t) (s now : Z) (rnd : string) :
  getState ls = Some sv ->
  PersistedState.state sv = running ->
  PersistedState.startTimestamp sv = Some s -> s <> 0 ->
  0 < remainingAt (PersistedState.targetDurationMs sv) s
        (PersistedState.accumulatedPausedMs sv) now ->
  let w := mount ls now rnd in
  stateOf w = running
  /\ startTimestampRef w = Some s
  /\ accumulatedPausedMsRef w = PersistedState.accumulatedPausedMs sv
  /\ pausedAtRef w = PersistedState.pausedAt sv
  /\ warningTriggeredRef w = PersistedState.warningTriggered sv
  /\ TimekeeperStateData.mute (stateData w) = PersistedState.mute sv
  /\ intervalRef w
     = Some (TimerInterval firstEnv (PersistedState.targetDurationMs sv))
  /\ sessionIdRef w = None
  /\ beeps w = []
  /\ storedSessions w = getSessions ls
  /\ forall t rnd',
       TimekeeperStateData.remainingMs
         (stateData (step w (t, IntervalTick rnd')))
       = remainingAt (PersistedState.targetDurationMs sv) s
           (PersistedState.accumulatedPausedMs sv) t.
Proof.
  intros Hg Hst Hs Hs0 Hrem.
  assert (Hm : mountEffect firstEnv now rnd (initialWorld ls)
    = loadSessions
        (startTimer firstEnv (PersistedState.targetDurationMs sv)
           (set_warningTriggeredRef (PersistedState.warningTriggered sv)
              (set_armingStartTimestampRef
                 (PersistedState.armingStartTimestamp sv)
                 (set_accumulatedPausedMsRef
                    (PersistedState.accumulatedPausedMs sv)
                    (set_pausedAtRef (PersistedState.pausedAt sv)
                       (set_startTimestampRef (Some s)
                          (setStateData
                             (fun prev =>
                                with_mute (PersistedState.mute sv)
                                  (with_state running prev))
                             (set_config
                                (TimekeeperConfig.mk
                                   (orStr (PersistedState.activityType sv)
                                          "Loading") 5 0 2)
                                (initialWorld ls)))))))))).
  { unfold mountEffect.
    change (getState (localStorage (initialWorld ls))) with (getState ls).
    rewrite Hg, Hst. cbn [TimekeeperState_eqb negb].
    cbn [startTimestampRef set_startTimestampRef set_pausedAtRef
         set_accumulatedPausedMsRef set_armingStartTimestampRef
         set_warningTriggeredRef accumulatedPausedMsRef].
    rewrite Hs. unfold truthy. apply Z.eqb_neq in Hs0. rewrite Hs0.
    cbn [negb].
    unfold remainingAt in Hrem.
    replace (PersistedState.targetDurationMs sv
             - (now - s - PersistedState.accumulatedPausedMs sv) <=? 0)
      with false by (symmetry; apply Z.leb_gt; lia).
    reflexivity. }
  cbv zeta. unfold mount. rewrite Hm.
  match goal with
  | |- context [render ?x] => destruct (render_cases x) as [-> | ->]
  end;
    (repeat apply conj; try reflexivity);
    intros t rnd'; unfold step; cbn [fst snd];
    match goal with
    | |- context [render ?x] => destruct (render_frame x) as (-> & _)
    end;
    unfold handle; cbn [intervalRef startTimer loadSessions set_sessions
      set_armingEnv persistState set_localStorage set_persistIntervalRef
      set_intervalRef];
    (rewrite (timerTick_remainingMs _ _ _ _ s); [reflexivity | reflexivity | ]);
    exact Hs0.
Qed.

Lemma restore_running_continues_witness :
  stateOf (reloadedAt 9000) = running
  /\ startTimestampRef (reloadedAt 9000) = Some 4000
  /\ TimekeeperStateData.remainingMs
       (stateData (step (reloadedAt 9000) (9016, IntervalTick "")))
     = 4984.
Proof.
  destruct (restore_running_continues (localStorage runningTenSeconds)
              (PersistedState.mk running "Repair" 10000 (Some 4000) None 0
                                 (Some 1000) false false)
              4000 9000 "")
    as (H1 & H2 & _ & _ & _ & _ & _ & _ & _ & _ & H11);
    [reflexivity | reflexivity | reflexivity | lia
     | vm_compute; reflexivity |].
  repeat apply conj.
  - exact H1.
  - exact H2.
  - unfold reloadedAt. rewrite H11. reflexivity.
Defined.

(** X18: an arming countdown does not resume after a reload, it starts
    again. Mounting over an Arming snapshot whose three seconds are not
    over installs a new arming countdown with [armingStartTimestamp] set to
    the time of the reload; when they are over, the controller goes to
    Running at once, with [startedAt] the time of the reload and a new
    session id. *)
Theorem restore_arming (ls : LocalStorage.t) (sv : PersistedState.t)
    (a now : Z) (rnd : string) :
  getState ls = Some sv ->
  PersistedState.state sv = arming ->
  PersistedState.armingStartTimestamp sv = Some a -> a <> 0 ->
  let w := mount ls now rnd in
  let target := PersistedState.targetDurationMs sv in
  (now - a < ARMING_DURATION ->
   stateOf w = arming
   /\ armingStartTimestampRef w = Some now
   /\ intervalRef w = Some (ArmingInterval firstEnv target)
   /\ sessionIdRef w = None
   /\ snapshot w = Some sv)
  /\ (ARMING_DURATION <= now - a ->
      stateOf w = running
      /\ startTimestampRef w = Some now
      /\ accumulatedPausedMsRef w = 0
      /\ sessionIdRef w = Some (generateId now rnd)
      /\ intervalRef w = Some (TimerInterval firstEnv target))
  /\ beeps w = []
  /\ storedSessions w = getSessions ls.
Proof.
  intros Hg Hst Ha Ha0. cbv zeta.
  apply Z.eqb_neq in Ha0.
  unfold mount.
  match goal with
  | |- context [render ?x] => destruct (render_cases x) as [-> | ->]
  end;
    unfold mountEffect, stateOf, snapshot, storedSessions;
    change (getState (localStorage (initialWorld ls))) with (getState ls);
    rewrite Hg, Hst; cbn; rewrite Ha; unfold truthy; rewrite Ha0; cbn;
    destruct (Z.leb_spec (ARMING_DURATION - (now - a)) 0);
    (repeat apply conj; try reflexivity); intros; try lia;
    cbn; repeat apply conj; first [reflexivity | exact Hg].
Qed.

Lemma restore_arming_witness :
  let w := mount (localStorage armingDefault) 2500 "" in
  stateOf w = arming /\ armingStartTimestampRef w = Some 2500.
Proof.
  destruct (restore_arming (localStorage armingDefault)
              (PersistedState.mk arming "Loading" 300000 None None 0
                                 (Some 1000) false false)
              1000 2500 "")
    as (H & _); [reflexivity | reflexivity | reflexivity | lia |].
  destruct H as (H1 & H2 & _); [unfold ARMING_DURATION; lia|].
  split; [exact H1 | exact H2].
Defined.

(** ** Mute *)

(** X19: [toggleMute] flips the mute flag and nothing else of the
    controller: state, timestamps, flags, intervals and history are kept,
    and an installed interval keeps the render it captured, so its ticks
    play exactly what they would have played. The snapshot it writes is
    built by the callback of the render before the toggle: it carries the
    mute value from before the toggle. *)
Theorem toggleMute_effect (now : Z) (w : World) :
  let w' := handle ToggleMute now w in
  TimekeeperStateData.mute (stateData w')
  = negb (TimekeeperStateData.mute (stateData w))
  /\ stateOf w' = stateOf w
  /\ TimekeeperStateData.remainingMs (stateData w')
     = TimekeeperStateData.remainingMs (stateData w)
  /\ intervalRef w' = intervalRef w
  /\ persistIntervalRef w' = persistIntervalRef w
  /\ startTimestampRef w' = startTimestampRef w
  /\ pausedAtRef w' = pausedAtRef w
  /\ accumulatedPausedMsRef w' = accumulatedPausedMsRef w
  /\ sessionIdRef w' = sessionIdRef w
  /\ storedSessions w' = storedSessions w
  /\ beeps w' = beeps w
  /\ option_map PersistedState.mute (snapshot w')
     = Some (TimekeeperStateData.mute (stateData w))
  /\ option_map PersistedState.state (snapshot w') = Some (stateOf w)
  /\ forall t rnd,
       beeps (handle (IntervalTick rnd) t w')
       = beeps (handle (IntervalTick rnd) t w).
Proof.
  cbv zeta. unfold stateOf, snapshot, storedSessions.
  repeat apply conj; try reflexivity.
  intros t rnd. unfold handle, toggleMute.
  cbn [intervalRef persistState setStateData set_stateData set_localStorage].
  destruct (intervalRef w) as [[e d|e d]|]; [| |reflexivity];
    unfold_callbacks; unfold audible; cbn;
    repeat (break_inner; cbn in *; try congruence); reflexivity.
Qed.

(** ** The accumulated pause *)


(** ** The session fields of a fresh page *)

Lemma handle_sessionFieldsMatchState ev now w :
  sessionFieldsMatchState w -> sessionFieldsMatchState (handle ev now w).
Proof.
  unfold sessionFieldsMatchState, stateOf. intros H.
  destruct (TimekeeperStateData.state (stateData w)) eqn:Hst;
    destruct ev; unfold_callbacks; cbn; rewrite ?Hst; cbn;
    repeat (break_inner; cbn in *; try congruence);
    rewrite ?Hst; cbn;
    try (repeat apply conj; first [reflexivity | discriminate | congruence
                                  | apply H]);
    try (destruct H as (H1 & H2 & H3 & H4); congruence);
    try (destruct H as (H1 & H2 & H3); congruence).
Qed.

(** X21: on a page that mounted without a snapshot, the session-scoped refs
    always agree with the state tag, whatever events follow: the start
    timestamp and the session id exist exactly while Running or Paused,
    the pause timestamp exactly while Paused, and in Idle, Arming, Finished
    and Aborted all three are null and the accumulated pause is zero. *)
Theorem fresh_page_session_fields (ss : list Session.t) (now : Z)
    (rnd : string) (evs : list (Z * Event)) :
  sessionFieldsMatchState (run (mount (LocalStorage.mk ss None) now rnd) evs).
Proof.
  assert (H0 : sessionFieldsMatchState (mount (LocalStorage.mk ss None) now rnd)).
  { unfold sessionFieldsMatchState. cbn. repeat apply conj; reflexivity. }
  revert H0. generalize (mount (LocalStorage.mk ss None) now rnd) as w.
  induction evs as [|[t ev] evs IH]; intros w Hw; [exact Hw|].
  cbn [run fold_left]. apply IH. unfold step. cbn [fst snd].
  pose proof (handle_sessionFieldsMatchState ev t w Hw) as H.
  destruct (render_cases (handle ev t w)) as [-> | ->]; exact H.
Qed.

(** ** Abort after a resume *)

Lemma resume_with_time_left (r : Z) (w : World) (s p : Z) :
  stateOf w = paused ->
  startTimestampRef w = Some s -> s <> 0 ->
  pausedAtRef w = Some p -> p <> 0 ->
  0 < remainingAt (targetDurationMs (currentEnv w)) s
        (accumulatedPausedMsRef w) p ->
  handle ResumeSession r w
  = startTimer (currentEnv w) (targetDurationMs (currentEnv w))
      (setStateData (with_state running)
         (set_pausedAtRef None
            (set_accumulatedPausedMsRef
               (accumulatedPausedMsRef w + (r - p)) w))).
Proof.
  intros Hst Hs Hs0 Hp Hp0 Hrem.
  unfold handle, resumeSession, truthy. unfold stateOf in Hst.
  cbn. rewrite Hst, Hs, Hp.
  apply Z.eqb_neq in Hs0. apply Z.eqb_neq in Hp0. rewrite Hs0, Hp0. cbn.
  unfold remainingAt in Hrem.
  replace (targetDurationMs (currentEnv w)
           - (r - s - (accumulatedPausedMsRef w + (r - p))) <=? 0)
    with false by (symmetry; apply Z.leb_gt; lia).
  reflexivity.
Qed.

(** X22: a pause that was ended by a resume is not counted. For a paused
    session that has its start timestamp, its pause timestamp and its
    session id set (the id is what a reload loses) and time left, resume
    at [r] and abort at [t] commit one Aborted record whose effective
    duration is the time from the start to the abort less the accumulated
    pause and less the pause that the resume ended. *)
Theorem abort_after_resume_excludes_pause (w : World) (s p r t : Z)
    (sid : string) :
  stateOf w = paused ->
  startTimestampRef w = Some s -> s <> 0 ->
  pausedAtRef w = Some p -> p <> 0 ->
  sessionIdRef w = Some sid -> sid <> "" ->
  0 < remainingAt (targetDurationMs (currentEnv w)) s
        (accumulatedPausedMsRef w) p ->
  let w' := run w [(r, ResumeSession); (t, AbortSession)] in
  stateOf w' = aborted
  /\ exists rec,
       storedSessions w' = firstn MAX_SESSIONS (rec :: storedSessions w)
       /\ Session.status rec = status_aborted
       /\ Session.id rec = sid
       /\ Session.startAt rec = s
       /\ Session.endAt rec = t
       /\ Session.effectiveDurationMs rec
          = t - s - accumulatedPausedMsRef w - (r - p).
Proof.
  intros Hst Hs Hs0 Hp Hp0 Hid Hid0 Hrem.
  pose proof (resume_with_time_left r w s p Hst Hs Hs0 Hp Hp0 Hrem) as Hres.
  cbv zeta.
  change (run w [(r, ResumeSession); (t, AbortSession)])
    with (render (handle AbortSession t (render (handle ResumeSession r w)))).
  set (w1 := handle ResumeSession r w) in *.
  assert (F : stateOf (render w1) = running
              /\ startTimestampRef (render w1) = Some s
              /\ sessionIdRef (render w1) = Some sid
              /\ accumulatedPausedMsRef (render w1)
                 = accumulatedPausedMsRef w + (r - p)
              /\ storedSessions (render w1) = storedSessions w).
  { destruct (render_cases w1) as [-> | ->]; rewrite Hres; cbn;
      repeat apply conj; first [reflexivity | assumption]. }
  destruct F as (F1 & F2 & F3 & F4 & F5).
  set (w2 := render w1) in *.
  destruct (render_frame (handle AbortSession t w2)) as (Es & _ & El & _).
  unfold stateOf, storedSessions. rewrite Es, El.
  apply Z.eqb_neq in Hs0. apply String.eqb_neq in Hid0.
  unfold stateOf, storedSessions in *.
  unfold handle, abortSession, commitSession, truthy, truthyStr,
    playIfAudible, getSessions in *.
  cbn. rewrite F1, F2, F3, Hs0, Hid0. cbn.
  destruct (audible (currentEnv w2)); cbn;
    (split; [reflexivity|]); eexists;
    (split; [rewrite <- F5; reflexivity|]);
    cbn; rewrite F4; repeat apply conj; try reflexivity; lia.
Qed.

Lemma abort_after_resume_excludes_pause_witness :
  let w' := run pausedDefault [(19000, ResumeSession); (25000, AbortSession)] in
  stateOf w' = aborted
  /\ exists rec,
       storedSessions w' = firstn MAX_SESSIONS (rec :: storedSessions pausedDefault)
       /\ Session.effectiveDurationMs rec = 16000.
Proof.
  destruct (abort_after_resume_excludes_pause pausedDefault 4000 14000
              19000 25000 "4000-k3x9")
    as (H1 & rec & H2 & _ & _ & _ & _ & H7);
    [reflexivity | reflexivity | lia | reflexivity | lia | reflexivity
     | discriminate | vm_compute; reflexivity |].
  split; [exact H1|]. exists rec. split; [exact H2|].
  rewrite H7. reflexivity.
Defined.

(** ** One warning per session *)

Lemma handle_sessionWarningBudget ev now w :
  ev <> StartSession ->
  (sessionWarningBudget (handle ev now w) <= sessionWarningBudget w)%nat.
Proof.
  intros Hev. unfold sessionWarningBudget, sessionOver, played, stateOf.
  destruct (TimekeeperStateData.state (stateData w)) eqn:Hst;
    destruct (intervalRef w) as [[ie idur|ie idur]|] eqn:Hi;
    destruct (warningTriggeredRef w) eqn:Hw;
    destruct ev; try contradiction;
    unfold_callbacks; cbn; rewrite ?Hst, ?Hi, ?Hw; cbn;
    repeat (break_inner; cbn in *; try congruence);
    rewrite ?Hst, ?Hi, ?Hw; cbn; prune; lia.
Qed.

(** X23: one warning per session. From any world and through any sequence
    of events that does not start a new session (ticks, pauses and
    resumes, mute and sound toggles, configuration changes, abort, finish,
    reset), the warning is played at most once more; a resume that brings
    the remaining time back under the threshold does not play it again. *)
Theorem warning_at_most_once_per_session (w : World)
    (evs : list (Z * Event)) :
  Forall (fun ev => snd ev <> StartSession) evs ->
  (played beepWarningTriple (run w evs)
   <= played beepWarningTriple w + 1)%nat.
Proof.
  intros Hevs.
  assert (H : (sessionWarningBudget (run w evs) <= sessionWarningBudget w)%nat).
  { revert w. induction Hevs as [|[t ev] evs Hev _ IH]; intros w; [cbn; lia|].
    cbn [run fold_left]. fold (run (step w (t, ev)) evs).
    etransitivity; [apply IH|].
    unfold step. cbn [fst snd] in *.
    pose proof (handle_sessionWarningBudget ev t w Hev) as H.
    destruct (render_cases (handle ev t w)) as [-> | ->]; exact H. }
  unfold sessionWarningBudget in H.
  destruct (sessionOver (run w evs)), (sessionOver w),
    (warningTriggeredRef (run w evs)), (warningTriggeredRef w); lia.
Qed.

Lemma warning_at_most_once_per_session_witness :
  (played beepWarningTriple (run runningWithSound aroundThreshold)
   <= played beepWarningTriple runningWithSound + 1)%nat.
Proof.
  apply warning_at_most_once_per_session.
  unfold aroundThreshold. repeat constructor; discriminate.
Defined.

(** ** The overdue amount *)

(** X24: the overdue amount of a committed record. When the start timestamp
    and the session id are set, finish and abort alike store
    [effectiveDurationMs - targetDurationMs] as the overdue amount if the
    session ran longer than the configured target, and no overdue amount
    at all if it did not. *)
Theorem overdue_recorded_only_when_positive (e : Env) (st : SessionStatus)
    (now s : Z) (sid : string) (w : World) :
  startTimestampRef w = Some s -> s <> 0 ->
  sessionIdRef w = Some sid -> sid <> "" ->
  exists rec,
    storedSessions (commitSession e st now w)
    = firstn MAX_SESSIONS (rec :: storedSessions w)
    /\ Session.status rec = st
    /\ Session.targetDurationMs rec = targetDurationMs e
    /\ Session.effectiveDurationMs rec
       = now - s - accumulatedPausedMsRef w
    /\ (targetDurationMs e < Session.effectiveDurationMs rec ->
        Session.overdueMs rec
        = Some (Session.effectiveDurationMs rec - targetDurationMs e))
    /\ (Session.effectiveDurationMs rec <= targetDurationMs e ->
        Session.overdueMs rec = None).
Proof.
  intros Hs Hs0 Hid Hid0.
  apply Z.eqb_neq in Hs0. apply String.eqb_neq in Hid0.
  exists (sessionRecord e st now s (accumulatedPausedMsRef w) sid).
  unfold commitSession, truthy, truthyStr, storedSessions.
  rewrite Hs, Hid, Hs0, Hid0. cbn.
  repeat apply conj; try reflexivity.
  - intros H.
    replace (now - s - accumulatedPausedMsRef w >? targetDurationMs e)
      with true by (symmetry; rewrite Z.gtb_ltb; apply Z.ltb_lt; lia).
    replace (now - s - accumulatedPausedMsRef w - targetDurationMs e >? 0)
      with true by (symmetry; rewrite Z.gtb_ltb; apply Z.ltb_lt; lia).
    reflexivity.
  - intros H.
    replace (now - s - accumulatedPausedMsRef w >? targetDurationMs e)
      with false by (symmetry; rewrite Z.gtb_ltb; apply Z.ltb_ge; lia).
    reflexivity.
Qed.

Lemma overdue_recorded_only_when_positive_witness :
  exists rec,
    storedSessions
      (commitSession (currentEnv overdueTick) status_aborted 19000 overdueTick)
    = firstn MAX_SESSIONS (rec :: storedSessions overdueTick)
    /\ Session.overdueMs rec = Some 5000.
Proof.
  destruct (overdue_recorded_only_when_positive (currentEnv overdueTick)
              status_aborted 19000 4000 "4000-k3x9" overdueTick)
    as (rec & H1 & _ & _ & H4 & H5 & _);
    [reflexivity | lia | reflexivity | discriminate |].
  exists rec. split; [exact H1|].
  rewrite H5; rewrite H4; [reflexivity | vm_compute; reflexivity].
Defined.
